(** * SIR epidemic simulation: a shallow embedding of [sir_advanced.py] and
    [sir_simulation.py]

    Numbers.  The Python code computes with binary64 floats (NumPy arrays
    filled by SciPy).  Here every number is an exact rational [Q]: decimal
    literals such as [0.1] stand for the rational they denote, rounding is
    not represented and neither are NumPy's non-finite values (a quotient by
    zero on a NumPy scalar is [inf] or [nan] there; [Qdiv] gives [0]).
    Python's own [/] on plain numbers raises [ZeroDivisionError]; that one is
    modelled, see [py_div].  Where rounding itself is the question, the
    derivative is also given in binary64, see [sir_equations_b64].

    Day counts are Python [int]s and are embedded as [Z].

    Failures.  A call either returns a value or raises; [result] records
    which, with the name of the exception class.

    The solver.  [scipy.integrate.odeint] is not part of the repository.  It
    enters through the interface [Solver]: the values it computes are left
    uninterpreted, its documented shape contract (one row per grid point,
    the initial condition in the first row) is built into [odeint]. *)

From Stdlib Require Import String.
From Stdlib Require Import PrimFloat.
From Stdlib Require Import QArith Qround ZArith List Bool Lia Sorted.
Import ListNotations.

Open Scope Q_scope.

(** ** Outcomes of a Python call *)

Inductive result (A : Type) : Type :=
| Ok (a : A)
| Raise (exc : string).

Arguments Ok {A} a.
Arguments Raise {A} exc.

Definition bind {A B : Type} (r : result A) (k : A -> result B) : result B :=
  match r with
  | Ok a => k a
  | Raise exc => Raise exc
  end.

Declare Scope py_scope.
Delimit Scope py_scope with py.

Notation "x <- r ;; k" := (bind r (fun x => k))
  (at level 100, r at next level, right associativity) : py_scope.
Notation "' p <- r ;; k" := (bind r (fun x => match x with p => k end))
  (at level 100, p pattern, r at next level, right associativity) : py_scope.

Open Scope py_scope.

(** Python's [a / b] on plain numbers. *)
Definition py_div (a b : Q) : result Q :=
  if Qeq_bool b 0 then Raise "ZeroDivisionError" else Ok (a / b).

(** Python's [int(x)]: truncation toward zero.  On [nan] and [inf] it raises
    ([ValueError], [OverflowError]); those values are not among the numbers
    of this file, so the conversion is total here. *)
Definition py_int (x : Q) : Z := Z.quot (Qnum x) (Zpos (Qden x)).

(** ** The NumPy operations the two files use *)

Module np.

(** [np.arange(start, stop)] on integers. *)
Definition arange (start stop : Z) : list Z :=
  map (fun k => (start + Z.of_nat k)%Z) (seq 0 (Z.to_nat (stop - start))).

(** [np.linspace(start, stop, num)]: [num - 1] equal steps, the last sample
    set to [stop] itself. *)
Definition linspace (start stop : Q) (num : nat) : list Q :=
  match num with
  | O => []
  | S O => [start]
  | S div =>
      let step := (stop - start) / inject_Z (Z.of_nat div) in
      map (fun k => inject_Z (Z.of_nat k) * step + start) (seq 0 div)
        ++ [stop]
  end.

(** [x[-1]] *)
Fixpoint item_last {A : Type} (x : list A) : result A :=
  match x with
  | [] => Raise "IndexError"
  | [a] => Ok a
  | _ :: x' => item_last x'
  end.

(** [x[k]] for a non-negative index. *)
Definition item {A : Type} (x : list A) (k : nat) : result A :=
  match nth_error x k with
  | Some a => Ok a
  | None => Raise "IndexError"
  end.

(** [x[:-1]] *)
Definition drop_last {A : Type} (x : list A) : list A := removelast x.

(** [np.concatenate([x, y])] *)
Definition concatenate {A : Type} (x y : list A) : list A := x ++ y.

(** [np.diff(x)] *)
Fixpoint diff (x : list Q) : list Q :=
  match x with
  | a :: (b :: _) as x' => (b - a) :: diff x'
  | _ => []
  end.

Definition maximum (m a : Q) : Q := if Qle_bool a m then m else a.

(** [np.max(x)] *)
Definition max (x : list Q) : result Q :=
  match x with
  | [] => Raise "ValueError"
  | a :: x' => Ok (fold_left maximum x' a)
  end.

(** Scan for [np.argmax]: [best] is the index of the running maximum [m],
    [k] the index of the head of [x]; a later sample replaces the running
    maximum only when it is strictly larger. *)
Fixpoint argmax_from (best : nat) (m : Q) (k : nat) (x : list Q) : nat :=
  match x with
  | [] => best
  | a :: x' =>
      if Qle_bool a m then argmax_from best m (S k) x'
      else argmax_from k a (S k) x'
  end.

(** [np.argmax(x)] *)
Definition argmax (x : list Q) : result nat :=
  match x with
  | [] => Raise "ValueError"
  | a :: x' => Ok (argmax_from 0 a 1 x')
  end.

(** [solution.T] unpacked into three arrays, for a solution with three
    columns. *)
Definition T (solution : list (Q * Q * Q)) : list Q * list Q * list Q :=
  (map (fun y => fst (fst y)) solution,
   map (fun y => snd (fst y)) solution,
   map (fun y => snd y) solution).

End np.

(** ** The external ODE solver *)

Definition state : Type := (Q * Q * Q)%type.
Definition derivative : Type := state -> Q -> state.

(** What SciPy's solver contributes: [sample func y0 t k] is the state it
    reports at grid index [k >= 1]; [fault func y0 t] is the exception, if
    any, it raises on a grid outside the documented domain (empty, or
    neither non-decreasing nor non-increasing). *)
Class Solver : Type := {
  sample : derivative -> state -> list Q -> nat -> state;
  fault : derivative -> state -> list Q -> option string
}.

(** The grid test of [odeint]: [np.diff(t)] is everywhere [>= 0] or
    everywhere [<= 0]; repeated values are allowed. *)
Definition monotone (t : list Q) : bool :=
  forallb (fun d => Qle_bool 0 d) (np.diff t)
  || forallb (fun d => Qle_bool d 0) (np.diff t).

Definition nonempty {A : Type} (x : list A) : bool :=
  match x with
  | [] => false
  | _ :: _ => true
  end.

Section Integrator.

Context {lsoda : Solver}.

(** The returned array has shape [(len(t), 3)], with [y0] in row 0. *)
Definition rows (func : derivative) (y0 : state) (t : list Q) : list state :=
  match t with
  | [] => []
  | _ :: rest => y0 :: map (sample func y0 t) (seq 1 (length rest))
  end.

Definition odeint (func : derivative) (y0 : state) (t : list Q)
  : result (list state) :=
  if nonempty t && monotone t then Ok (rows func y0 t)
  else match fault func y0 t with
       | Some exc => Raise exc
       | None => Ok (rows func y0 t)
       end.

End Integrator.

(** A solver to run the definitions with: explicit Euler steps along the
    grid, never raising. *)
Fixpoint euler_path (func : derivative) (y : state) (t0 : Q) (rest : list Q)
  : list state :=
  match rest with
  | [] => []
  | t1 :: rest' =>
      let '(s, i, r) := y in
      let '(ds, di, dr) := func y t0 in
      let h := t1 - t0 in
      let y1 := (Qred (s + h * ds), Qred (i + h * di), Qred (r + h * dr)) in
      y1 :: euler_path func y1 t1 rest'
  end.

Definition euler : Solver := {|
  sample func y0 t k :=
    match t with
    | [] => y0
    | t0 :: rest => nth k (y0 :: euler_path func y0 t0 rest) y0
    end;
  fault _ _ _ := None
|}.

(** ** Console and figure: the state the scripts write to *)

(** A Matplotlib call with the arrays it is given, or a printed line with
    the numbers interpolated into it (texts abridged, without accents). *)
Inductive event : Type :=
| Draw (call : string) (arrays : list (list Q))
| Echo (text : string) (values : list Q).

Definition world : Type := list event.

Definition IO (A : Type) : Type := world -> result A * world.

Definition ret {A : Type} (a : A) : IO A := fun w => (Ok a, w).

Definition seq_io {A B : Type} (m : IO A) (k : A -> IO B) : IO B :=
  fun w =>
    match m w with
    | (Ok a, w') => k a w'
    | (Raise exc, w') => (Raise exc, w')
    end.

Definition lift {A : Type} (r : result A) : IO A := fun w => (r, w).

Definition emit (e : event) : IO unit := fun w => (Ok tt, w ++ [e]).

Declare Scope io_scope.
Delimit Scope io_scope with io.

Notation "x <~ m ;; k" := (seq_io m (fun x => k))
  (at level 100, m at next level, right associativity) : io_scope.
Notation "' p <~ m ;; k" := (seq_io m (fun x => match x with p => k end))
  (at level 100, p pattern, m at next level, right associativity) : io_scope.
Notation "m ;;; k" := (seq_io m (fun _ => k))
  (at level 100, right associativity) : io_scope.

(** [for x in xs: acc = body(acc, x)] *)
Fixpoint for_each {A B : Type} (xs : list A) (acc : B) (body : B -> A -> IO B)
  : IO B :=
  match xs with
  | [] => ret acc
  | x :: xs' => seq_io (body acc x) (fun acc' => for_each xs' acc' body)
  end.

(** ** sir_advanced.py *)

Definition sir_equations (y : state) (t : Q) (N beta gamma : Q) : state :=
  let '(s, i, r) := y in
  let dSdt := - beta * s * i / N in
  let dIdt := beta * s * i / N - gamma * i in
  let dRdt := gamma * i in
  (dSdt, dIdt, dRdt).

(** The same function as NumPy evaluates it, on binary64 numbers, each
    operation rounded to nearest. *)
Definition sir_equations_b64 (y : float * float * float)
           (t N beta gamma : float) : float * float * float :=
  let '(s, i, r) := y in
  let dSdt := (- beta * s * i / N)%float in
  let dIdt := (beta * s * i / N - gamma * i)%float in
  let dRdt := (gamma * i)%float in
  (dSdt, dIdt, dRdt).

Definition series : Type := (list Q * list Q * list Q)%type.

Section Advanced.

Context {lsoda : Solver}.

Definition simuler_sir (N beta gamma S0 I0 R0 : Q) (temps : list Q)
  : result series :=
  let y0 := (S0, I0, R0) in
  solution <- odeint (fun y t => sir_equations y t N beta gamma) y0 temps ;;
  Ok (np.T solution).

(** *** [analyse_sensibilite_R0] *)

Section Sweep.

Variables (N S0 I0 R0_init gamma : Q).
Variable temps : list Q.
Variable valeurs_R0 : list Q.

(** First loop: one infected curve per value of R0. *)
Definition tracer_courbes : IO unit :=
  for_each valeurs_R0 tt (fun _ R0_val =>
    let beta := R0_val * gamma in
    ('(_, Is, _) <~ lift (simuler_sir N beta gamma S0 I0 R0_init temps) ;;
     emit (Draw "plot" [temps; Is]))%io).

(** Second loop: the final attack rate, in percent, per value of R0. *)
Definition attaque_finale : IO (list Q) :=
  for_each valeurs_R0 [] (fun acc R0_val =>
    let beta := R0_val * gamma in
    ('(Ss, _, _) <~ lift (simuler_sir N beta gamma S0 I0 R0_init temps) ;;
     s_last <~ lift (np.item_last Ss) ;;
     ret (acc ++ [(N - s_last) / N * 100]))%io).

(** The body of the function; the model hands back [attaque_finale],
    which the source passes to [plt.bar]. *)
Definition sensibilite : IO (list Q) :=
  (emit (Draw "figure" []) ;;;
   emit (Draw "subplot" []) ;;;
   tracer_courbes ;;;
   emit (Draw "legend" []) ;;;
   emit (Draw "subplot" []) ;;;
   attaques <~ attaque_finale ;;
   emit (Draw "bar" [valeurs_R0; attaques]) ;;;
   emit (Draw "savefig" []) ;;;
   emit (Echo "Graphique sauvegarde : analyse_sensibilite_R0.png" []) ;;;
   emit (Draw "show" []) ;;;
   ret attaques)%io.

End Sweep.

Definition analyse_sensibilite_R0 : IO (list Q) :=
  let N := 10000 in
  let '(S0, I0, R0_init) := (9990, 10, 0) in
  let gamma := 1 # 10 in
  let temps := np.linspace 0 200 200 in
  let valeurs_R0 := [1 # 2; 1; 3 # 2; 2; 3; 5] in
  sensibilite N S0 I0 R0_init gamma temps valeurs_R0.

(** *** [scenarios_interventions] *)

(** One row of the summary table; [Pourcentage] keeps the number that the
    source then formats with one decimal and a percent sign. *)
Record ligne : Type := {
  Scenario : string;
  Pic_d_infectes : Z;
  Total_infectes : Z;
  Pourcentage : Q
}.

Section Scenarios.

Variables (N S0 I0 R0_init gamma beta_base : Q).
Variable jours_total : Z.

(** [np.arange(start, stop)] as the solver reads it, the integer days
    converted to numbers. *)
Definition jours (start stop : Z) : list Q :=
  map inject_Z (np.arange start stop).

(** Lines 99-113: the series of one scenario. *)
Definition simuler_scenario (beta : Q) (jour_intervention : Z)
  : result series :=
  let temps := jours 0 (jours_total + 1) in
  if (jour_intervention =? 0)%Z then
    simuler_sir N beta gamma S0 I0 R0_init temps
  else
    let temps1 := jours 0 (jour_intervention + 1) in
    '(S1, I1, R1) <- simuler_sir N beta_base gamma S0 I0 R0_init temps1 ;;
    let temps2 := jours jour_intervention (jours_total + 1) in
    s1 <- np.item_last S1 ;;
    i1 <- np.item_last I1 ;;
    r1 <- np.item_last R1 ;;
    '(S2, I2, R2) <- simuler_sir N beta gamma s1 i1 r1 temps2 ;;
    let Ss := np.concatenate (np.drop_last S1) S2 in
    let Is := np.concatenate (np.drop_last I1) I2 in
    let Rs := np.concatenate (np.drop_last R1) R2 in
    Ok (Ss, Is, Rs).

(** Lines 119-126: the statistics of one scenario. *)
Definition resumer (nom : string) (Ss Is : list Q) : result ligne :=
  pic <- np.max Is ;;
  s_last <- np.item_last Ss ;;
  let total_infectes := N - s_last in
  Ok {| Scenario := nom;
        Pic_d_infectes := py_int pic;
        Total_infectes := py_int total_infectes;
        Pourcentage := total_infectes / N * 100 |}.

(** [plt.table(cellText=df.values, ...)]: Matplotlib reads the number of
    columns off the first row of the cell texts, and raises [IndexError]
    when the table has no row. *)
Definition plt_table (resultats : list ligne) : IO unit :=
  match resultats with
  | [] => lift (Raise "IndexError")
  | _ :: _ => emit (Draw "table" [])
  end.

(** The loop over the scenario table, in insertion order; the model hands
    back [resultats], which the source turns into the printed table. *)
Definition comparer (scenarios : list (string * (Q * Z)))
  : IO (list ligne) :=
  let temps := jours 0 (jours_total + 1) in
  (emit (Draw "figure" []) ;;;
   resultats <~ for_each scenarios [] (fun resultats entry =>
     let '(nom, (beta, jour_intervention)) := entry in
     '(Ss, Is, _) <~ lift (simuler_scenario beta jour_intervention) ;;
     emit (Draw "plot" [temps; Is]) ;;;
     l <~ lift (resumer nom Ss Is) ;;
     ret (resultats ++ [l])) ;;
   emit (Draw "legend" []) ;;;
   emit (Draw "figure" []) ;;;
   plt_table resultats ;;;
   emit (Draw "savefig" []) ;;;
   emit (Echo "Graphique sauvegarde : scenarios_interventions.png" []) ;;;
   emit (Draw "show" []) ;;;
   emit (Echo "TABLEAU RECAPITULATIF DES SCENARIOS"
           (map Pourcentage resultats)) ;;;
   ret resultats)%io.

End Scenarios.

Definition scenarios_interventions : IO (list ligne) :=
  let N := 10000 in
  let '(S0, I0, R0_init) := (9990, 10, 0) in
  let gamma := 1 # 10 in
  let beta_base := 1 # 2 in
  let jours_total := 200%Z in
  let scenarios :=
    [ ("Sans intervention"%string, (beta_base, 0%Z));
      ("Distanciation modérée (-30%)"%string, (beta_base * (7 # 10), 30%Z));
      ("Distanciation forte (-60%)"%string, (beta_base * (4 # 10), 30%Z));
      ("Confinement (-80%)"%string, (beta_base * (2 # 10), 30%Z)) ] in
  comparer N S0 I0 R0_init gamma beta_base jours_total scenarios.

Definition main_advanced : IO unit :=
  (emit (Echo "ANALYSES AVANCEES DU MODELE SIR" []) ;;;
   _ <~ analyse_sensibilite_R0 ;;
   _ <~ scenarios_interventions ;;
   emit (Echo "Toutes les analyses sont terminees!" []))%io.

End Advanced.

(** ** sir_simulation.py *)

Module ModeleSIR.

(** The attributes of an instance. *)
Record t : Type := {
  N : Q;
  beta : Q;
  gamma : Q;
  S0 : Q;
  I0 : Q;
  R0_init : Q;
  R0 : Q
}.

Definition __init__ (N beta gamma S0 I0 R0 : Q) : result t :=
  r0 <- py_div beta gamma ;;
  Ok {| N := N; beta := beta; gamma := gamma;
        S0 := S0; I0 := I0; R0_init := R0; R0 := r0 |}.

(** [self.beta = b] and [self.gamma = g]: a plain attribute store. *)
Definition set_beta (self : t) (b : Q) : t :=
  {| N := N self; beta := b; gamma := gamma self;
     S0 := S0 self; I0 := I0 self; R0_init := R0_init self; R0 := R0 self |}.

Definition set_gamma (self : t) (g : Q) : t :=
  {| N := N self; beta := beta self; gamma := g;
     S0 := S0 self; I0 := I0 self; R0_init := R0_init self; R0 := R0 self |}.

Definition equations_sir (self : t) (y : state) (t : Q) : state :=
  let '(s, i, r) := y in
  let dSdt := - beta self * s * i / N self in
  let dIdt := beta self * s * i / N self - gamma self * i in
  let dRdt := gamma self * i in
  (dSdt, dIdt, dRdt).

(** The four numbers computed at the top of [afficher_statistiques]. *)
Record statistiques : Type := {
  pic_infectes : Q;
  jour_pic : Q;
  total_infectes : Q;
  pourcentage_infectes : Q
}.

Definition calculer_statistiques (self : t) (temps Ss Is Rs : list Q)
  : result statistiques :=
  pic <- np.max Is ;;
  k <- np.argmax Is ;;
  jour <- np.item temps k ;;
  s_last <- np.item_last Ss ;;
  let total := N self - s_last in
  let pourcentage := (total / N self) * 100 in
  Ok {| pic_infectes := pic; jour_pic := jour;
        total_infectes := total; pourcentage_infectes := pourcentage |}.

(** The statistics, then the printed lines.  The [int(...)] conversions of
    the source sit inside the prints; they can fail on [nan] or [inf] only
    (see [py_int]), so this is the function on finite samples. *)
Definition afficher_statistiques (self : t) (temps Ss Is Rs : list Q)
  : IO unit :=
  (st <~ lift (calculer_statistiques self temps Ss Is Rs) ;;
   s_last <~ lift (np.item_last Ss) ;;
   emit (Echo "STATISTIQUES DE LA SIMULATION" []) ;;;
   emit (Echo "Population totale (N)" [N self]) ;;;
   emit (Echo "Taux de transmission" [beta self]) ;;;
   emit (Echo "Taux de guerison" [gamma self]) ;;;
   emit (Echo "Nombre de reproduction" [R0 self]) ;;;
   emit (Echo "Pic d'infectes" [inject_Z (py_int (pic_infectes st))]) ;;;
   emit (Echo "Jour du pic" [inject_Z (py_int (jour_pic st))]) ;;;
   emit (Echo "Total infectes (final)"
           [inject_Z (py_int (total_infectes st))]) ;;;
   emit (Echo "Pourcentage infecte" [pourcentage_infectes st]) ;;;
   emit (Echo "Susceptibles restants" [inject_Z (py_int s_last)]))%io.

Definition tracer_resultats (self : t) (temps Ss Is Rs : list Q) : IO unit :=
  let pct (x : list Q) := map (fun v => v / N self * 100) x in
  (emit (Draw "figure" []) ;;;
   emit (Draw "plot" [temps; Ss]) ;;;
   emit (Draw "plot" [temps; Is]) ;;;
   emit (Draw "plot" [temps; Rs]) ;;;
   emit (Draw "plot" [temps; Is]) ;;;
   emit (Draw "plot" [temps; pct Ss]) ;;;
   emit (Draw "plot" [temps; pct Is]) ;;;
   emit (Draw "plot" [temps; pct Rs]) ;;;
   emit (Draw "plot" [Ss; Is]) ;;;
   emit (Draw "savefig" []) ;;;
   emit (Echo "Graphique sauvegarde : resultats_sir.png" []) ;;;
   emit (Draw "show" []))%io.

Section WithSolver.

Context {lsoda : Solver}.

Definition simuler (self : t) (temps : list Q) : result series :=
  let y0 := (S0 self, I0 self, R0_init self) in
  solution <- odeint (equations_sir self) y0 temps ;;
  let '(Ss, Is, Rs) := np.T solution in
  Ok (Ss, Is, Rs).

End WithSolver.

End ModeleSIR.

Section Main.

Context {lsoda : Solver}.

Definition main : IO unit :=
  let N := 10000 in
  let I0 := 10 in
  let R0_init := 0 in
  let S0 := N - I0 - R0_init in
  let beta := 1 # 2 in
  let gamma := 1 # 10 in
  let jours := 200%nat in
  let temps := np.linspace 0 (inject_Z (Z.of_nat jours)) jours in
  (emit (Echo "SIMULATION DU MODELE SIR" []) ;;;
   modele <~ lift (ModeleSIR.__init__ N beta gamma S0 I0 R0_init) ;;
   '(Ss, Is, Rs) <~ lift (ModeleSIR.simuler modele temps) ;;
   ModeleSIR.afficher_statistiques modele temps Ss Is Rs ;;;
   ModeleSIR.tracer_resultats modele temps Ss Is Rs ;;;
   emit (Echo "Simulation terminee avec succes!" []))%io.

End Main.

(** ** Notions used in the statements *)

(** The three arrays of [out] have one entry per grid point. *)
Definition same_length (temps : list Q) (out : series) : Prop :=
  let '(Ss, Is, Rs) := out in
  List.length Ss = List.length temps
  /\ List.length Is = List.length temps
  /\ List.length Rs = List.length temps.

(** The raw grids of the two segments, joined after dropping the last day
    of the first. *)
Definition grille_composee (jour_intervention jours_total : Z) : list Z :=
  np.concatenate (np.drop_last (np.arange 0 (jour_intervention + 1)))
                 (np.arange jour_intervention (jours_total + 1)).

(** ** Notions used for the rest of the two files *)

(** [m] returns [a] from every state of console and figure, and what it
    appends to them satisfies [P]. *)
Definition runs {A : Type} (P : event -> Prop) (m : IO A) (a : A) : Prop :=
  exists evs : list event,
    Forall P evs /\ forall w : world, m w = (Ok a, w ++ evs).

(** A call that draws one array against another is given two arrays of the
    same length (Matplotlib refuses them otherwise). *)
Definition aligned (e : event) : Prop :=
  match e with
  | Draw _ [x; y] => List.length x = List.length y
  | _ => True
  end.

(** Solvers whose sample at grid index [k] depends on the grid up to [k]
    only: output points are produced one after the other. *)
Definition causal (lsoda : Solver) : Prop :=
  forall (func : derivative) (y0 : state) (t : list Q) (k : nat),
    (k < List.length t)%nat ->
    sample func y0 t k = sample func y0 (firstn (S k) t) k.

(** Solvers that see the derivative function through its values only. *)
Definition extensional (lsoda : Solver) : Prop :=
  forall (f g : derivative) (y0 : state) (t : list Q),
    (forall y u, f y u = g y u) ->
    fault f y0 t = fault g y0 t
    /\ forall k, sample f y0 t k = sample g y0 t k.

(** The value of an outcome, if there is one. *)
Definition valeur {A : Type} (r : result A) : option A :=
  match r with
  | Ok a => Some a
  | Raise _ => None
  end.

(** [m] has the outcome [r] from every state of console and figure. *)
Definition yields {A : Type} (m : IO A) (r : result A) : Prop :=
  forall w : world, fst (m w) = r.

(** A [for] loop without its effects. *)
Fixpoint fold_result {A B : Type} (xs : list A) (acc : B)
         (body : B -> A -> result B) : result B :=
  match xs with
  | [] => Ok acc
  | x :: xs' => bind (body acc x) (fun acc' => fold_result xs' acc' body)
  end.

(** One iteration of each loop of the sweep without its drawing: the first
    loop only runs the solver, the second appends the statistic. *)
Definition courbe_sans_trace {lsoda : Solver} (N S0 I0 R0_init gamma : Q)
           (temps : list Q) (_ : unit) (R0_val : Q) : result unit :=
  bind (simuler_sir N (R0_val * gamma) gamma S0 I0 R0_init temps)
       (fun _ => Ok tt).

Definition attaque_sans_trace {lsoda : Solver} (N S0 I0 R0_init gamma : Q)
           (temps : list Q) (acc : list Q) (R0_val : Q) : result (list Q) :=
  '(Ss, _, _) <- simuler_sir N (R0_val * gamma) gamma S0 I0 R0_init temps ;;
  s_last <- np.item_last Ss ;;
  Ok (acc ++ [(N - s_last) / N * 100]).

(** The sweep as the specification words it (4.3,
    [sweep_reproduction_number]): for each R0 value in turn, beta is
    R0 * gamma, one single-segment run is made over the grid and reduced to
    its final attack statistic (the percentage the code computes); the
    results come in the order of the values.  A function of its arguments
    alone, to compare [sensibilite] with. *)
Fixpoint sweep_reproduction_number {lsoda : Solver} (N S0 I0 R0_init gamma : Q)
         (temps r0_values : list Q) : result (list Q) :=
  match r0_values with
  | [] => Ok []
  | R0_val :: rest =>
      let beta := R0_val * gamma in
      '(Ss, _, _) <- simuler_sir N beta gamma S0 I0 R0_init temps ;;
      s_last <- np.item_last Ss ;;
      others <- sweep_reproduction_number N S0 I0 R0_init gamma temps rest ;;
      Ok ((N - s_last) / N * 100 :: others)
  end.

(** * Properties *)

(** ** Lists and grids *)

Lemma item_last_ok {A : Type} (x : list A) (d : A) :
  x <> [] -> np.item_last x = Ok (last x d).
Proof.
  induction x as [|a x IH]; [congruence|].
  intros _. destruct x as [|b x]; [reflexivity|].
  change (np.item_last (a :: b :: x)) with (np.item_last (b :: x)).
  change (last (a :: b :: x) d) with (last (b :: x) d).
  apply IH. discriminate.
Qed.

Lemma item_last_app {A : Type} (x : list A) (a : A) :
  np.item_last (x ++ [a]) = Ok a.
Proof.
  rewrite (item_last_ok _ a); [now rewrite last_last|].
  destruct x; discriminate.
Qed.

Lemma arange_length (a b : Z) :
  List.length (np.arange a b) = Z.to_nat (b - a).
Proof. unfold np.arange. now rewrite length_map, length_seq. Qed.

Lemma map_seq_from {A : Type} (f : nat -> A) (n s : nat) :
  map f (seq s n) = map (fun k => f (s + k)%nat) (seq 0 n).
Proof.
  revert s f. induction n as [|n IH]; intros s f; [reflexivity|].
  simpl. rewrite Nat.add_0_r. f_equal.
  rewrite (IH (S s)), (IH 1%nat). apply map_ext. intros k.
  f_equal. lia.
Qed.

Lemma arange_split (a m b : Z) :
  (a <= m <= b)%Z -> np.arange a b = np.arange a m ++ np.arange m b.
Proof.
  intros H. unfold np.arange.
  replace (Z.to_nat (b - a)) with (Z.to_nat (m - a) + Z.to_nat (b - m))%nat
    by lia.
  rewrite seq_app, map_app. f_equal.
  rewrite map_seq_from. apply map_ext. intros k. lia.
Qed.

Lemma arange_last (a b : Z) :
  (a <= b)%Z -> np.arange a (b + 1) = np.arange a b ++ [b].
Proof.
  intros H. rewrite (arange_split a b (b + 1)) by lia. f_equal.
  unfold np.arange. replace (Z.to_nat (b + 1 - b)) with 1%nat by lia.
  simpl. f_equal. lia.
Qed.

Lemma arange_first (a b : Z) :
  (a < b)%Z -> np.arange a b = a :: np.arange (a + 1) b.
Proof.
  intros H. rewrite (arange_split a (a + 1) b) by lia.
  unfold np.arange at 1. replace (Z.to_nat (a + 1 - a)) with 1%nat by lia.
  simpl. f_equal. lia.
Qed.

Lemma arange_In (a b k : Z) : In k (np.arange a b) <-> (a <= k < b)%Z.
Proof.
  unfold np.arange. rewrite in_map_iff. split.
  - intros [n [<- Hn]]. apply in_seq in Hn. lia.
  - intros H. exists (Z.to_nat (k - a)). split; [lia|].
    apply in_seq. lia.
Qed.

Lemma arange_sorted (a b : Z) : StronglySorted Z.lt (np.arange a b).
Proof.
  destruct (Z_lt_le_dec a b) as [Hlt|Hge].
  - remember (Z.to_nat (b - a)) as n eqn:En.
    revert a Hlt En. induction n as [|n IH]; intros a Hlt En; [lia|].
    rewrite arange_first by lia. constructor.
    + destruct (Z.eq_dec (a + 1) b) as [->|Hne].
      * unfold np.arange. rewrite Z.sub_diag. constructor.
      * apply IH; lia.
    + apply Forall_forall. intros k Hk. apply arange_In in Hk. lia.
  - unfold np.arange. replace (Z.to_nat (b - a)) with 0%nat by lia.
    constructor.
Qed.

Lemma arange_nth (a b : Z) (k : nat) :
  (k < Z.to_nat (b - a))%nat ->
  nth_error (np.arange a b) k = Some (a + Z.of_nat k)%Z.
Proof.
  intros H. unfold np.arange.
  rewrite nth_error_map, nth_error_seq.
  destruct (Nat.ltb_spec k (Z.to_nat (b - a))); [reflexivity|lia].
Qed.

Lemma increasing_grid_monotone (l : list Z) :
  StronglySorted Z.lt l -> monotone (map inject_Z l) = true.
Proof.
  intros Hs. unfold monotone. apply orb_true_iff. left.
  induction Hs as [|a l Hs IH Hall]; [reflexivity|].
  destruct l as [|b l]; [reflexivity|].
  change (np.diff (map inject_Z (a :: b :: l)))
    with ((inject_Z b - inject_Z a) :: np.diff (map inject_Z (b :: l))).
  cbn [forallb]. rewrite IH, andb_true_r.
  apply Qle_bool_iff. inversion Hall as [|? ? Hab _]; subst.
  unfold Qle, Qminus, Qplus, Qopp, inject_Z; cbn. lia.
Qed.

Lemma jours_monotone (a b : Z) : monotone (jours a b) = true.
Proof. apply increasing_grid_monotone, arange_sorted. Qed.

Lemma jours_length (a b : Z) : List.length (jours a b) = Z.to_nat (b - a).
Proof. unfold jours. now rewrite length_map, arange_length. Qed.

Lemma jours_nonempty (a b : Z) : (a < b)%Z -> nonempty (jours a b) = true.
Proof.
  intros H. unfold jours. rewrite arange_first by assumption. reflexivity.
Qed.

(** ** The solver interface *)

Section SolverFacts.

Context {lsoda : Solver}.

Lemma rows_length (func : derivative) (y0 : state) (t : list Q) :
  List.length (rows func y0 t) = List.length t.
Proof.
  destruct t as [|t0 rest]; [reflexivity|].
  cbn [rows List.length]. now rewrite length_map, length_seq.
Qed.

Lemma rows_first (func : derivative) (y0 : state) (t : list Q) :
  t <> [] -> nth_error (rows func y0 t) 0 = Some y0.
Proof. destruct t; [congruence|reflexivity]. Qed.

Lemma odeint_returns (func : derivative) (y0 : state) (t : list Q) :
  nonempty t = true -> monotone t = true ->
  odeint func y0 t = Ok (rows func y0 t).
Proof. intros Hn Hm. unfold odeint. now rewrite Hn, Hm. Qed.

Lemma odeint_shape (func : derivative) (y0 : state) (t : list Q)
      (solution : list state) :
  odeint func y0 t = Ok solution -> solution = rows func y0 t.
Proof.
  unfold odeint.
  destruct (nonempty t && monotone t); [congruence|].
  destruct (fault func y0 t); congruence.
Qed.

Lemma odeint_single (func : derivative) (y0 : state) (t0 : Q) :
  odeint func y0 [t0] = Ok [y0].
Proof. reflexivity. Qed.

Lemma simuler_sir_returns (N beta gamma S0 I0 R0 : Q) (temps : list Q) :
  nonempty temps = true -> monotone temps = true ->
  simuler_sir N beta gamma S0 I0 R0 temps
  = Ok (np.T (rows (fun y t => sir_equations y t N beta gamma)
                   (S0, I0, R0) temps)).
Proof.
  intros Hn Hm. unfold simuler_sir. now rewrite odeint_returns.
Qed.

Lemma simuler_sir_shape (N beta gamma S0 I0 R0 : Q) (temps : list Q)
      (out : series) :
  simuler_sir N beta gamma S0 I0 R0 temps = Ok out ->
  out = np.T (rows (fun y t => sir_equations y t N beta gamma)
                   (S0, I0, R0) temps).
Proof.
  unfold simuler_sir.
  destruct (odeint _ _ temps) as [solution|exc] eqn:E; cbn [bind];
    [|discriminate].
  apply odeint_shape in E. congruence.
Qed.

End SolverFacts.

Lemma T_lengths (solution : list state) (Ss Is Rs : list Q) :
  np.T solution = (Ss, Is, Rs) ->
  List.length Ss = List.length solution
  /\ List.length Is = List.length solution
  /\ List.length Rs = List.length solution.
Proof.
  unfold np.T. intros E. inversion E; subst.
  now rewrite !length_map.
Qed.

(** The two source files state the same right-hand side. *)
Lemma equations_sir_agree (self : ModeleSIR.t) (y : state) (t : Q) :
  ModeleSIR.equations_sir self y t
  = sir_equations y t (ModeleSIR.N self) (ModeleSIR.beta self)
                  (ModeleSIR.gamma self).
Proof. destruct y as [[s i] r]. reflexivity. Qed.

(** ** The derivative *)

(** C1. For every state (S, I, R), time t and parameters N, beta, gamma, the
    derivative function returns exactly the triple
    (-beta*S*I/N, beta*S*I/N - gamma*I, gamma*I): this holds of
    [sir_equations] and of the method [ModeleSIR.equations_sir], and the
    function that [simuler_sir] and [ModeleSIR.simuler] hand to the solver is
    that one, with the caller's N, beta and gamma. *)
Theorem sir_equations_formula :
  forall (lsoda : Solver) (N beta gamma S0 I0 R0 R0' : Q) (temps : list Q),
    let formula (s i r : Q) : state :=
      (- beta * s * i / N, beta * s * i / N - gamma * i, gamma * i) in
    let self :=
      {| ModeleSIR.N := N; ModeleSIR.beta := beta; ModeleSIR.gamma := gamma;
         ModeleSIR.S0 := S0; ModeleSIR.I0 := I0; ModeleSIR.R0_init := R0;
         ModeleSIR.R0 := R0' |} in
    (forall s i r t, sir_equations (s, i, r) t N beta gamma = formula s i r)
    /\ (forall s i r t, ModeleSIR.equations_sir self (s, i, r) t = formula s i r)
    /\ (exists func : derivative,
          (forall s i r t, func (s, i, r) t = formula s i r)
          /\ simuler_sir N beta gamma S0 I0 R0 temps
             = (solution <- odeint func (S0, I0, R0) temps ;;
                Ok (np.T solution)))
    /\ (exists func : derivative,
          (forall s i r t, func (s, i, r) t = formula s i r)
          /\ ModeleSIR.simuler self temps
             = (solution <- odeint func (S0, I0, R0) temps ;;
                Ok (np.T solution))).
Proof.
  intros lsoda N beta gamma S0 I0 R0 R0' temps formula self.
  split; [reflexivity|]. split; [reflexivity|]. split.
  - exists (fun y t => sir_equations y t N beta gamma).
    split; reflexivity.
  - exists (ModeleSIR.equations_sir self). split; reflexivity.
Qed.

(** ** Do the derivatives cancel? *)

Lemma sir_equations_sum_zero (y : state) (t N beta gamma : Q) :
  let '(dSdt, dIdt, dRdt) := sir_equations y t N beta gamma in
  dSdt + dIdt + dRdt == 0.
Proof.
  destruct y as [[s i] r]. cbn [sir_equations]. unfold Qdiv. ring.
Qed.




(** ** Shape of the integrator's output *)

Lemma T_rows_same_length {lsoda : Solver} (func : derivative) (y0 : state)
      (temps : list Q) :
  same_length temps (np.T (rows func y0 temps)).
Proof.
  unfold same_length, np.T. now rewrite !length_map, rows_length.
Qed.

Lemma nonempty_true {A : Type} (x : list A) : x <> [] -> nonempty x = true.
Proof. destruct x; [congruence|reflexivity]. Qed.

Lemma simuler_returns {lsoda : Solver} (self : ModeleSIR.t) (temps : list Q) :
  nonempty temps = true -> monotone temps = true ->
  ModeleSIR.simuler self temps
  = Ok (np.T (rows (ModeleSIR.equations_sir self)
                   (ModeleSIR.S0 self, ModeleSIR.I0 self,
                    ModeleSIR.R0_init self) temps)).
Proof.
  intros Hn Hm. unfold ModeleSIR.simuler. now rewrite odeint_returns.
Qed.

Lemma simuler_shape {lsoda : Solver} (self : ModeleSIR.t) (temps : list Q)
      (out : series) :
  ModeleSIR.simuler self temps = Ok out ->
  out = np.T (rows (ModeleSIR.equations_sir self)
                   (ModeleSIR.S0 self, ModeleSIR.I0 self,
                    ModeleSIR.R0_init self) temps).
Proof.
  unfold ModeleSIR.simuler.
  destruct (odeint _ _ temps) as [solution|exc] eqn:E; cbn [bind];
    [|discriminate].
  apply odeint_shape in E. subst solution.
  unfold np.T. intros E. injection E as <-. reflexivity.
Qed.

(** C9. For every non-empty time grid, whatever [simuler_sir] or
    [ModeleSIR.simuler] returns has one sample per grid point: S, I and R
    each have the length of the grid.  And on a grid the solver accepts
    (monotone, repeated values allowed) both do return. *)
Theorem integrator_output_length :
  forall (lsoda : Solver) (N beta gamma S0 I0 R0 : Q) (self : ModeleSIR.t)
         (temps : list Q),
    temps <> [] ->
    (forall out, simuler_sir N beta gamma S0 I0 R0 temps = Ok out ->
                 same_length temps out)
    /\ (forall out, ModeleSIR.simuler self temps = Ok out ->
                    same_length temps out)
    /\ (monotone temps = true ->
        (exists out, simuler_sir N beta gamma S0 I0 R0 temps = Ok out)
        /\ (exists out, ModeleSIR.simuler self temps = Ok out)).
Proof.
  intros lsoda N beta gamma S0 I0 R0 self temps Hne.
  split; [|split].
  - intros out E. apply simuler_sir_shape in E. subst out.
    apply T_rows_same_length.
  - intros out E. apply simuler_shape in E. subst out.
    apply T_rows_same_length.
  - intros Hm. apply nonempty_true in Hne. split; eexists.
    + now apply simuler_sir_returns.
    + now apply simuler_returns.
Qed.

Lemma integrator_output_length_witness :
  let temps := [0; 1; 2] in
  let self :=
    {| ModeleSIR.N := 100; ModeleSIR.beta := 1 # 2; ModeleSIR.gamma := 1 # 10;
       ModeleSIR.S0 := 90; ModeleSIR.I0 := 10; ModeleSIR.R0_init := 0;
       ModeleSIR.R0 := 5 |} in
  temps <> []
  /\ (forall out,
        simuler_sir (lsoda := euler) 100 (1 # 2) (1 # 10) 90 10 0 temps = Ok out ->
        same_length temps out)
  /\ (forall out, ModeleSIR.simuler (lsoda := euler) self temps = Ok out ->
                  same_length temps out)
  /\ (monotone temps = true ->
      (exists out,
         simuler_sir (lsoda := euler) 100 (1 # 2) (1 # 10) 90 10 0 temps = Ok out)
      /\ (exists out, ModeleSIR.simuler (lsoda := euler) self temps = Ok out)).
Proof.
  intros temps self.
  assert (Hne : temps <> []) by discriminate.
  split; [exact Hne|].
  exact (integrator_output_length euler 100 (1 # 2) (1 # 10) 90 10 0 self
           temps Hne).
Defined.

(** ** Scenarios with an intervention *)

(** On a grid the solver accepts, [simuler_sir] returns one sample per grid
    point and the first sample is the initial condition. *)
Lemma simuler_sir_spec {lsoda : Solver} (N beta gamma S0 I0 R0 : Q)
      (temps : list Q) :
  nonempty temps = true -> monotone temps = true ->
  exists Ss Is Rs,
    simuler_sir N beta gamma S0 I0 R0 temps = Ok (Ss, Is, Rs)
    /\ same_length temps (Ss, Is, Rs)
    /\ nth_error Ss 0 = Some S0
    /\ nth_error Is 0 = Some I0
    /\ nth_error Rs 0 = Some R0.
Proof.
  intros Hn Hm. rewrite simuler_sir_returns by assumption.
  set (func := fun y t => sir_equations y t N beta gamma).
  exists (map (fun y => fst (fst y)) (rows func (S0, I0, R0) temps)),
         (map (fun y => snd (fst y)) (rows func (S0, I0, R0) temps)),
         (map (fun y => snd y) (rows func (S0, I0, R0) temps)).
  split; [reflexivity|]. split; [apply T_rows_same_length|].
  destruct temps as [|t0 rest]; [discriminate|]. now cbn.
Qed.

Lemma length_nonnil {A : Type} (x : list A) (n : nat) :
  List.length x = S n -> x <> [].
Proof. destruct x; [discriminate|]. intros _. discriminate. Qed.

Lemma length_drop_last {A : Type} (x : list A) (n : nat) :
  List.length x = S n -> List.length (np.drop_last x) = n.
Proof.
  intros H. unfold np.drop_last. rewrite removelast_firstn_len, H.
  cbn [Nat.pred]. rewrite length_firstn. lia.
Qed.

Lemma nth_error_at_join {A : Type} (x y : list A) (n : nat) :
  List.length x = n ->
  nth_error (np.concatenate x y) n = nth_error y 0.
Proof.
  intros H. unfold np.concatenate.
  rewrite nth_error_app2 by lia. now rewrite H, Nat.sub_diag.
Qed.

Lemma grille_composee_eq (d jt : Z) :
  (0 <= d <= jt)%Z -> grille_composee d jt = np.arange 0 (jt + 1).
Proof.
  intros H. unfold grille_composee, np.drop_last, np.concatenate.
  rewrite (arange_last 0 d) by lia. rewrite removelast_last.
  symmetry. apply arange_split. lia.
Qed.

Lemma arange_NoDup (a b : Z) : NoDup (np.arange a b).
Proof.
  pose proof (arange_sorted a b) as Hs.
  induction Hs as [|k l _ IH Hall]; constructor; [|exact IH].
  intros Hin. rewrite Forall_forall in Hall. specialize (Hall k Hin). lia.
Qed.

Lemma arange_count (a b k : Z) :
  (a <= k < b)%Z -> count_occ Z.eq_dec (np.arange a b) k = 1%nat.
Proof.
  intros H. apply NoDup_count_occ'; [apply arange_NoDup|].
  now apply arange_In.
Qed.

(** The two-segment branch, unfolded: segment 1 with [beta_base] over days
    [0..d], segment 2 with [beta] over days [d..jours_total] started from the
    last sample of segment 1, and the join. *)
Lemma simuler_scenario_segments {lsoda : Solver}
      (N S0 I0 R0_init gamma beta_base : Q) (jours_total : Z) (beta : Q)
      (d : Z) :
  (0 < d <= jours_total)%Z ->
  exists S1 I1 R1 s1 i1 r1 S2 I2 R2,
    simuler_sir N beta_base gamma S0 I0 R0_init (jours 0 (d + 1))
    = Ok (S1, I1, R1)
    /\ same_length (jours 0 (d + 1)) (S1, I1, R1)
    /\ (np.item_last S1 = Ok s1 /\ np.item_last I1 = Ok i1
        /\ np.item_last R1 = Ok r1)
    /\ simuler_sir N beta gamma s1 i1 r1 (jours d (jours_total + 1))
       = Ok (S2, I2, R2)
    /\ same_length (jours d (jours_total + 1)) (S2, I2, R2)
    /\ (nth_error S2 0 = Some s1 /\ nth_error I2 0 = Some i1
        /\ nth_error R2 0 = Some r1)
    /\ simuler_scenario N S0 I0 R0_init gamma beta_base jours_total beta d
       = Ok (np.concatenate (np.drop_last S1) S2,
             np.concatenate (np.drop_last I1) I2,
             np.concatenate (np.drop_last R1) R2).
Proof.
  intros Hd.
  destruct (simuler_sir_spec N beta_base gamma S0 I0 R0_init
              (jours 0 (d + 1)))
    as (S1 & I1 & R1 & E1 & L1 & _);
    [apply jours_nonempty; lia | apply jours_monotone |].
  pose proof L1 as (LS & LI & LR).
  rewrite jours_length in LS, LI, LR.
  replace (Z.to_nat (d + 1 - 0)) with (S (Z.to_nat d)) in LS, LI, LR by lia.
  pose proof (item_last_ok S1 0 (length_nonnil _ _ LS)) as ES.
  pose proof (item_last_ok I1 0 (length_nonnil _ _ LI)) as EI.
  pose proof (item_last_ok R1 0 (length_nonnil _ _ LR)) as ER.
  destruct (simuler_sir_spec N beta gamma (last S1 0) (last I1 0) (last R1 0)
              (jours d (jours_total + 1)))
    as (S2 & I2 & R2 & E2 & L2 & F2);
    [apply jours_nonempty; lia | apply jours_monotone |].
  exists S1, I1, R1, (last S1 0), (last I1 0), (last R1 0), S2, I2, R2.
  repeat (split; [assumption|]).
  split; [now repeat split|].
  split; [assumption|]. split; [assumption|]. split; [assumption|].
  unfold simuler_scenario.
  destruct (Z.eqb_spec d 0) as [->|_]; [lia|].
  rewrite E1. cbn [bind]. rewrite ES, EI, ER. cbn [bind].
  rewrite E2. reflexivity.
Qed.

Lemma simuler_scenario_day_zero {lsoda : Solver}
      (N S0 I0 R0_init gamma beta_base : Q) (jours_total : Z) (beta : Q) :
  simuler_scenario N S0 I0 R0_init gamma beta_base jours_total beta 0
  = simuler_sir N beta gamma S0 I0 R0_init (jours 0 (jours_total + 1)).
Proof. reflexivity. Qed.

Lemma drop_last_item_last {A : Type} (x : list A) (a : A) :
  np.item_last x = Ok a -> np.concatenate (np.drop_last x) [a] = x.
Proof.
  intros E.
  assert (Hx : x <> []) by (destruct x; discriminate).
  rewrite (item_last_ok _ a Hx) in E. injection E as E.
  unfold np.concatenate, np.drop_last.
  transitivity (removelast x ++ [last x a]); [now rewrite E|].
  symmetry. now apply app_removelast_last.
Qed.

Lemma jours_single (d : Z) : jours d (d + 1) = [inject_Z d].
Proof.
  unfold jours, np.arange. replace (Z.to_nat (d + 1 - d)) with 1%nat by lia.
  cbn. now rewrite Z.add_0_r.
Qed.

Lemma simuler_scenario_last_day {lsoda : Solver}
      (N S0 I0 R0_init gamma beta_base : Q) (jours_total : Z) (beta : Q) :
  (0 < jours_total)%Z ->
  simuler_scenario N S0 I0 R0_init gamma beta_base jours_total beta
                   jours_total
  = simuler_sir N beta_base gamma S0 I0 R0_init (jours 0 (jours_total + 1)).
Proof.
  intros Hjt.
  destruct (simuler_scenario_segments N S0 I0 R0_init gamma beta_base
              jours_total beta jours_total)
    as (S1 & I1 & R1 & s1 & i1 & r1 & S2 & I2 & R2
        & E1 & _ & (ES & EI & ER) & E2 & _ & _ & E); [lia|].
  rewrite E, E1. rewrite jours_single in E2.
  unfold simuler_sir in E2. rewrite odeint_single in E2.
  cbn in E2. injection E2 as <- <- <-.
  now rewrite !drop_last_item_last.
Qed.

(** C3. In a two-segment run with change-point d strictly between 0 and the
    horizon, segment 2 is started from exactly the last sample
    (S1[-1], I1[-1], R1[-1]) of segment 1; the output is segment 1 without its
    last sample followed by segment 2, so that day d, present in both raw
    grids, occurs exactly once on the joined time axis, which is the strictly
    increasing grid 0..jours_total; the output sample at day d is the state
    carried over. *)
Theorem intervention_join :
  forall (lsoda : Solver) (N S0 I0 R0_init gamma beta_base : Q)
         (jours_total : Z) (beta : Q) (d : Z),
    (0 < d < jours_total)%Z ->
    exists S1 I1 R1 s1 i1 r1 S2 I2 R2,
      simuler_sir N beta_base gamma S0 I0 R0_init (jours 0 (d + 1))
      = Ok (S1, I1, R1)
      /\ (np.item_last S1 = Ok s1 /\ np.item_last I1 = Ok i1
          /\ np.item_last R1 = Ok r1)
      /\ simuler_sir N beta gamma s1 i1 r1 (jours d (jours_total + 1))
         = Ok (S2, I2, R2)
      /\ simuler_scenario N S0 I0 R0_init gamma beta_base jours_total beta d
         = Ok (np.concatenate (np.drop_last S1) S2,
               np.concatenate (np.drop_last I1) I2,
               np.concatenate (np.drop_last R1) R2)
      /\ (nth_error (np.concatenate (np.drop_last S1) S2) (Z.to_nat d)
          = Some s1
          /\ nth_error (np.concatenate (np.drop_last I1) I2) (Z.to_nat d)
             = Some i1
          /\ nth_error (np.concatenate (np.drop_last R1) R2) (Z.to_nat d)
             = Some r1)
      /\ (In d (np.arange 0 (d + 1))
          /\ In d (np.arange d (jours_total + 1))
          /\ ~ In d (np.drop_last (np.arange 0 (d + 1))))
      /\ grille_composee d jours_total = np.arange 0 (jours_total + 1)
      /\ count_occ Z.eq_dec (grille_composee d jours_total) d = 1%nat
      /\ StronglySorted Z.lt (grille_composee d jours_total).
Proof.
  intros lsoda N S0 I0 R0_init gamma beta_base jours_total beta d Hd.
  destruct (simuler_scenario_segments N S0 I0 R0_init gamma beta_base
              jours_total beta d)
    as (S1 & I1 & R1 & s1 & i1 & r1 & S2 & I2 & R2
        & E1 & (LS & LI & LR) & Elast & E2 & _ & (FS & FI & FR) & E); [lia|].
  exists S1, I1, R1, s1, i1, r1, S2, I2, R2.
  rewrite jours_length in LS, LI, LR.
  replace (Z.to_nat (d + 1 - 0)) with (S (Z.to_nat d)) in LS, LI, LR by lia.
  do 4 (split; [assumption|]).
  split.
  { rewrite !nth_error_at_join by now apply length_drop_last.
    now repeat split. }
  split.
  { split; [apply arange_In; lia|]. split; [apply arange_In; lia|].
    unfold np.drop_last. rewrite (arange_last 0 d), removelast_last by lia.
    rewrite arange_In. lia. }
  rewrite grille_composee_eq by lia.
  split; [reflexivity|]. split; [apply arange_count; lia|].
  apply arange_sorted.
Qed.

Lemma intervention_join_witness :
  exists S1 I1 R1 s1 i1 r1 S2 I2 R2,
    simuler_sir (lsoda := euler) 10000 (1 # 2) (1 # 10) 9990 10 0
                (jours 0 (30 + 1))
    = Ok (S1, I1, R1)
    /\ (np.item_last S1 = Ok s1 /\ np.item_last I1 = Ok i1
        /\ np.item_last R1 = Ok r1)
    /\ simuler_sir (lsoda := euler) 10000 (1 # 5) (1 # 10) s1 i1 r1
                   (jours 30 (200 + 1))
       = Ok (S2, I2, R2)
    /\ simuler_scenario (lsoda := euler) 10000 9990 10 0 (1 # 10) (1 # 2) 200
                        (1 # 5) 30
       = Ok (np.concatenate (np.drop_last S1) S2,
             np.concatenate (np.drop_last I1) I2,
             np.concatenate (np.drop_last R1) R2)
    /\ (nth_error (np.concatenate (np.drop_last S1) S2) (Z.to_nat 30)
        = Some s1
        /\ nth_error (np.concatenate (np.drop_last I1) I2) (Z.to_nat 30)
           = Some i1
        /\ nth_error (np.concatenate (np.drop_last R1) R2) (Z.to_nat 30)
           = Some r1)
    /\ (In 30%Z (np.arange 0 (30 + 1))
        /\ In 30%Z (np.arange 30 (200 + 1))
        /\ ~ In 30%Z (np.drop_last (np.arange 0 (30 + 1))))
    /\ grille_composee 30 200 = np.arange 0 (200 + 1)
    /\ count_occ Z.eq_dec (grille_composee 30 200) 30%Z = 1%nat
    /\ StronglySorted Z.lt (grille_composee 30 200).
Proof.
  apply (intervention_join euler 10000 9990 10 0 (1 # 10) (1 # 2) 200 (1 # 5)
           30).
  lia.
Defined.

(** C10. For every scenario of the comparison, with the intervention day
    anywhere from 0 (single segment) to the horizon, the run returns and its
    S, I and R series each have [jours_total + 1] samples, as many as the
    shared time axis, whose k-th entry is day k. *)
Theorem scenario_series_length :
  forall (lsoda : Solver) (N S0 I0 R0_init gamma beta_base : Q)
         (jours_total : Z) (beta : Q) (d : Z),
    (0 <= jours_total)%Z ->
    (d = 0 \/ 0 < d <= jours_total)%Z ->
    exists Ss Is Rs,
      simuler_scenario N S0 I0 R0_init gamma beta_base jours_total beta d
      = Ok (Ss, Is, Rs)
      /\ List.length Ss = Z.to_nat (jours_total + 1)
      /\ List.length Is = Z.to_nat (jours_total + 1)
      /\ List.length Rs = Z.to_nat (jours_total + 1)
      /\ List.length (jours 0 (jours_total + 1)) = Z.to_nat (jours_total + 1)
      /\ forall k : nat, (k < Z.to_nat (jours_total + 1))%nat ->
           nth_error (np.arange 0 (jours_total + 1)) k = Some (Z.of_nat k).
Proof.
  intros lsoda N S0 I0 R0_init gamma beta_base jours_total beta d Hjt Hd.
  assert (Hgrid : List.length (jours 0 (jours_total + 1))
                  = Z.to_nat (jours_total + 1)).
  { rewrite jours_length. f_equal. lia. }
  assert (Hdays : forall k : nat, (k < Z.to_nat (jours_total + 1))%nat ->
            nth_error (np.arange 0 (jours_total + 1)) k = Some (Z.of_nat k)).
  { intros k Hk. rewrite arange_nth by (rewrite Z.sub_0_r; exact Hk).
    reflexivity. }
  destruct Hd as [->|Hd].
  - rewrite simuler_scenario_day_zero.
    destruct (simuler_sir_spec N beta gamma S0 I0 R0_init
                (jours 0 (jours_total + 1)))
      as (Ss & Is & Rs & E & (LS & LI & LR) & _);
      [apply jours_nonempty; lia | apply jours_monotone |].
    exists Ss, Is, Rs. rewrite Hgrid in LS, LI, LR. now repeat split.
  - destruct (simuler_scenario_segments N S0 I0 R0_init gamma beta_base
                jours_total beta d)
      as (S1 & I1 & R1 & s1 & i1 & r1 & S2 & I2 & R2
          & _ & (LS1 & LI1 & LR1) & _ & _ & (LS2 & LI2 & LR2) & _ & E);
      [lia|].
    rewrite jours_length in LS1, LI1, LR1, LS2, LI2, LR2.
    replace (Z.to_nat (d + 1 - 0)) with (S (Z.to_nat d))
      in LS1, LI1, LR1 by lia.
    apply length_drop_last in LS1, LI1, LR1.
    eexists _, _, _. split; [exact E|].
    unfold np.concatenate. rewrite !length_app, LS1, LI1, LR1, LS2, LI2, LR2.
    repeat split; try lia; assumption.
Qed.

Lemma scenario_series_length_witness :
  exists Ss Is Rs,
    simuler_scenario (lsoda := euler) 10000 9990 10 0 (1 # 10) (1 # 2) 200
                     (1 # 5) 30
    = Ok (Ss, Is, Rs)
    /\ List.length Ss = Z.to_nat (200 + 1)
    /\ List.length Is = Z.to_nat (200 + 1)
    /\ List.length Rs = Z.to_nat (200 + 1)
    /\ List.length (jours 0 (200 + 1)) = Z.to_nat (200 + 1)
    /\ forall k : nat, (k < Z.to_nat (200 + 1))%nat ->
         nth_error (np.arange 0 (200 + 1)) k = Some (Z.of_nat k).
Proof.
  apply (scenario_series_length euler 10000 9990 10 0 (1 # 10) (1 # 2) 200
           (1 # 5) 30); lia.
Defined.

(** ** Change-points at the ends of the horizon *)

(** C5, as the code has it.  A change-point day equal to 0 is not rejected:
    it selects the single-segment run with the scenario's own beta over the
    whole grid.  A change-point equal to the horizon is not rejected either:
    segment 2 is then the single boundary sample, and the run returns the
    series of the base beta over the whole grid.  Both return a series. *)
Theorem change_point_at_boundary :
  forall (lsoda : Solver) (N S0 I0 R0_init gamma beta_base : Q)
         (jours_total : Z) (beta : Q),
    (0 < jours_total)%Z ->
    (exists out,
       simuler_sir N beta gamma S0 I0 R0_init (jours 0 (jours_total + 1))
       = Ok out
       /\ simuler_scenario N S0 I0 R0_init gamma beta_base jours_total beta 0
          = Ok out)
    /\ (exists out,
          simuler_sir N beta_base gamma S0 I0 R0_init
                      (jours 0 (jours_total + 1))
          = Ok out
          /\ simuler_scenario N S0 I0 R0_init gamma beta_base jours_total beta
                              jours_total
             = Ok out).
Proof.
  intros lsoda N S0 I0 R0_init gamma beta_base jours_total beta Hjt.
  split.
  - rewrite simuler_scenario_day_zero.
    rewrite simuler_sir_returns;
      [eexists; split; reflexivity | apply jours_nonempty; lia
       | apply jours_monotone].
  - rewrite simuler_scenario_last_day by assumption.
    rewrite simuler_sir_returns;
      [eexists; split; reflexivity | apply jours_nonempty; lia
       | apply jours_monotone].
Qed.

Lemma change_point_at_boundary_witness :
  (exists out,
     simuler_sir (lsoda := euler) 10000 (1 # 5) (1 # 10) 9990 10 0
                 (jours 0 (200 + 1))
     = Ok out
     /\ simuler_scenario (lsoda := euler) 10000 9990 10 0 (1 # 10) (1 # 2) 200
                         (1 # 5) 0
        = Ok out)
  /\ (exists out,
        simuler_sir (lsoda := euler) 10000 (1 # 2) (1 # 10) 9990 10 0
                    (jours 0 (200 + 1))
        = Ok out
        /\ simuler_scenario (lsoda := euler) 10000 9990 10 0 (1 # 10) (1 # 2)
                            200 (1 # 5) 200
           = Ok out).
Proof.
  apply (change_point_at_boundary euler 10000 9990 10 0 (1 # 10) (1 # 2) 200
           (1 # 5)).
  lia.
Defined.

(** The first entry of the source's own scenario table has change-point 0,
    and a change-point of 200 on the 200-day horizon runs as well: neither
    raises [InvalidIntervention]. *)
Lemma change_point_boundary_not_rejected :
  (exists out,
     simuler_scenario (lsoda := euler) 10000 9990 10 0 (1 # 10) (1 # 2) 200
                      (1 # 2) 0
     = Ok out)
  /\ simuler_scenario (lsoda := euler) 10000 9990 10 0 (1 # 10) (1 # 2) 200
                      (1 # 2) 0
     <> Raise "InvalidIntervention"
  /\ (exists out,
        simuler_scenario (lsoda := euler) 10000 9990 10 0 (1 # 10) (1 # 2) 200
                         (1 # 5) 200
        = Ok out)
  /\ simuler_scenario (lsoda := euler) 10000 9990 10 0 (1 # 10) (1 # 2) 200
                      (1 # 5) 200
     <> Raise "InvalidIntervention".
Proof.
  assert (H0 : exists out,
             simuler_scenario (lsoda := euler) 10000 9990 10 0 (1 # 10)
                              (1 # 2) 200 (1 # 2) 0 = Ok out).
  { rewrite simuler_scenario_day_zero.
    rewrite simuler_sir_returns;
      [eexists; reflexivity | apply jours_nonempty; lia
       | apply jours_monotone]. }
  assert (H200 : exists out,
             simuler_scenario (lsoda := euler) 10000 9990 10 0 (1 # 10)
                              (1 # 2) 200 (1 # 5) 200 = Ok out).
  { rewrite simuler_scenario_last_day by lia.
    rewrite simuler_sir_returns;
      [eexists; reflexivity | apply jours_nonempty; lia
       | apply jours_monotone]. }
  split; [exact H0|]. split; [destruct H0 as [out ->]; discriminate|].
  split; [exact H200|]. destruct H200 as [out ->]; discriminate.
Qed.

(** ** Parameters and grids the integrator accepts *)

Lemma py_div_nonzero (a b : Q) : ~ b == 0 -> py_div a b = Ok (a / b).
Proof.
  intros H. unfold py_div.
  destruct (Qeq_bool b 0) eqn:E; [|reflexivity].
  apply Qeq_bool_iff in E. contradiction.
Qed.

Lemma py_div_zero (a b : Q) : b == 0 -> py_div a b = Raise "ZeroDivisionError".
Proof.
  intros H. unfold py_div. apply Qeq_bool_iff in H. now rewrite H.
Qed.

(** C6, as the code has it.  Neither integrator checks N, beta, gamma or
    the strictness of the grid.  For all values of N, beta and gamma and
    every non-empty grid that is monotone (repeated values allowed),
    [simuler_sir] returns a series with one sample per grid point; so does
    [ModeleSIR], whose constructor fails in one case only, with
    [ZeroDivisionError] when gamma is zero. *)
Theorem integrator_accepts_parameters :
  forall (lsoda : Solver) (N beta gamma S0 I0 R0 : Q) (temps : list Q),
    temps <> [] ->
    monotone temps = true ->
    (exists out,
       simuler_sir N beta gamma S0 I0 R0 temps = Ok out
       /\ same_length temps out)
    /\ (~ gamma == 0 ->
        exists self out,
          ModeleSIR.__init__ N beta gamma S0 I0 R0 = Ok self
          /\ ModeleSIR.simuler self temps = Ok out
          /\ same_length temps out)
    /\ (gamma == 0 ->
        ModeleSIR.__init__ N beta gamma S0 I0 R0 = Raise "ZeroDivisionError").
Proof.
  intros lsoda N beta gamma S0 I0 R0 temps Hne Hm.
  apply nonempty_true in Hne. split; [|split].
  - rewrite simuler_sir_returns by assumption.
    eexists. split; [reflexivity|]. apply T_rows_same_length.
  - intros Hg. unfold ModeleSIR.__init__.
    rewrite py_div_nonzero by assumption. cbn [bind].
    eexists. eexists. split; [reflexivity|].
    rewrite simuler_returns by assumption.
    split; [reflexivity|]. apply T_rows_same_length.
  - intros Hg. unfold ModeleSIR.__init__.
    now rewrite py_div_zero by assumption.
Qed.

Lemma integrator_accepts_parameters_witness :
  (exists out,
     simuler_sir (lsoda := euler) (-5) (-1) (-2) 10 1 0 [0; 0; 1] = Ok out
     /\ same_length [0; 0; 1] out)
  /\ (~ -2 == 0 ->
      exists self out,
        ModeleSIR.__init__ (-5) (-1) (-2) 10 1 0 = Ok self
        /\ ModeleSIR.simuler (lsoda := euler) self [0; 0; 1] = Ok out
        /\ same_length [0; 0; 1] out)
  /\ (-2 == 0 ->
      ModeleSIR.__init__ (-5) (-1) (-2) 10 1 0 = Raise "ZeroDivisionError").
Proof.
  apply (integrator_accepts_parameters euler (-5) (-1) (-2) 10 1 0 [0; 0; 1]).
  - discriminate.
  - reflexivity.
Defined.

(** With N = -1, gamma = -1 and beta = -1, none of them a valid parameter,
    and the one-point grid [0], both integrators return the initial state as
    the series instead of failing with [InvalidParameters]. *)
Lemma invalid_parameters_not_rejected :
  simuler_sir (lsoda := euler) (-1) (-1) (-1) 10 1 0 [0] = Ok ([10], [1], [0])
  /\ simuler_sir (lsoda := euler) (-1) (-1) (-1) 10 1 0 [0]
     <> Raise "InvalidParameters"
  /\ (exists self,
        ModeleSIR.__init__ (-1) (-1) (-1) 10 1 0 = Ok self
        /\ ModeleSIR.simuler (lsoda := euler) self [0] = Ok ([10], [1], [0])).
Proof.
  split; [reflexivity|]. split; [discriminate|].
  eexists. split; reflexivity.
Qed.

(** ** The reproduction number of a [ModeleSIR] instance *)

(** C7, as the code has it.  The constructor computes R0 once, as
    beta / gamma of its arguments, and stores it; right after construction
    the attribute equals beta / gamma.  Storing a new beta or gamma on the
    instance leaves the stored R0 as it was. *)
Theorem R0_computed_at_construction :
  forall (N beta gamma S0 I0 R0 : Q),
    ~ gamma == 0 ->
    exists self,
      ModeleSIR.__init__ N beta gamma S0 I0 R0 = Ok self
      /\ ModeleSIR.beta self = beta
      /\ ModeleSIR.gamma self = gamma
      /\ ModeleSIR.R0 self = ModeleSIR.beta self / ModeleSIR.gamma self
      /\ (forall b, ModeleSIR.R0 (ModeleSIR.set_beta self b)
                    = ModeleSIR.R0 self)
      /\ (forall g, ModeleSIR.R0 (ModeleSIR.set_gamma self g)
                    = ModeleSIR.R0 self).
Proof.
  intros N beta gamma S0 I0 R0 Hg. unfold ModeleSIR.__init__.
  rewrite py_div_nonzero by assumption. cbn [bind].
  eexists. split; [reflexivity|]. now repeat split.
Qed.

Lemma R0_computed_at_construction_witness :
  exists self,
    ModeleSIR.__init__ 10000 (1 # 2) (1 # 10) 9990 10 0 = Ok self
    /\ ModeleSIR.beta self = 1 # 2
    /\ ModeleSIR.gamma self = 1 # 10
    /\ ModeleSIR.R0 self = ModeleSIR.beta self / ModeleSIR.gamma self
    /\ (forall b, ModeleSIR.R0 (ModeleSIR.set_beta self b)
                  = ModeleSIR.R0 self)
    /\ (forall g, ModeleSIR.R0 (ModeleSIR.set_gamma self g)
                  = ModeleSIR.R0 self).
Proof.
  apply (R0_computed_at_construction 10000 (1 # 2) (1 # 10) 9990 10 0).
  discriminate.
Defined.

(** The model of [main], beta = 0.5 and gamma = 0.1, has R0 = 5; after
    [modele.beta = 0.3] the attribute is still 5 while beta / gamma is 3. *)
Lemma R0_stale_after_assignment :
  exists self,
    ModeleSIR.__init__ 10000 (1 # 2) (1 # 10) 9990 10 0 = Ok self
    /\ ModeleSIR.R0 (ModeleSIR.set_beta self (3 # 10)) == 5
    /\ ModeleSIR.beta (ModeleSIR.set_beta self (3 # 10))
       / ModeleSIR.gamma (ModeleSIR.set_beta self (3 # 10)) == 3
    /\ ~ ModeleSIR.R0 (ModeleSIR.set_beta self (3 # 10))
         == ModeleSIR.beta (ModeleSIR.set_beta self (3 # 10))
            / ModeleSIR.gamma (ModeleSIR.set_beta self (3 # 10)).
Proof.
  eexists. split; [reflexivity|]. cbn.
  split; [reflexivity|]. split; [reflexivity|]. discriminate.
Qed.

(** ** Statistics of a series *)

Lemma maximum_cases (m a : Q) :
  (a <= m /\ np.maximum m a = m) \/ (m < a /\ np.maximum m a = a).
Proof.
  unfold np.maximum. destruct (Qle_bool a m) eqn:E.
  - left. split; [now apply Qle_bool_iff|reflexivity].
  - right. split; [|reflexivity]. apply Qnot_le_lt. intros H.
    apply Qle_bool_iff in H. congruence.
Qed.

Lemma fold_maximum_spec (x : list Q) (m : Q) :
  m <= fold_left np.maximum x m
  /\ (forall a, In a x -> a <= fold_left np.maximum x m)
  /\ (fold_left np.maximum x m = m \/ In (fold_left np.maximum x m) x).
Proof.
  revert m. induction x as [|b x IH]; intros m; cbn [fold_left].
  - split; [apply Qle_refl|]. split; [intros a []|now left].
  - destruct (IH (np.maximum m b)) as (Hge & Hall & Hin).
    destruct (maximum_cases m b) as [[Hle E]|[Hlt E]]; rewrite E in *.
    + split; [assumption|]. split.
      * intros a [<-|Ha]; [now apply Qle_trans with m|now apply Hall].
      * destruct Hin as [->|Hin]; [now left|right; now right].
    + split; [apply Qle_trans with b; [now apply Qlt_le_weak|assumption]|].
      split.
      * intros a [<-|Ha]; [assumption|now apply Hall].
      * right. destruct Hin as [->|Hin]; [now left|now right].
Qed.

(** [argmax_from] started after a prefix [p] whose running maximum [m] sits
    at index [best], first among the samples equal to it. *)
Lemma argmax_from_spec (x p : list Q) (best : nat) (m : Q) (n : nat) :
  n = List.length p ->
  nth_error p best = Some m ->
  (forall j a, nth_error p j = Some a -> a <= m) ->
  (forall j a, (j < best)%nat -> nth_error p j = Some a -> a < m) ->
  nth_error (p ++ x) (np.argmax_from best m n x)
  = Some (fold_left np.maximum x m)
  /\ (forall j a, (j < np.argmax_from best m n x)%nat ->
                  nth_error (p ++ x) j = Some a ->
                  a < fold_left np.maximum x m).
Proof.
  revert p best m n.
  induction x as [|b x IH]; intros p best m n Hn Hbest Hle Hlt.
  - cbn. rewrite app_nil_r. split; [assumption|exact Hlt].
  - cbn [np.argmax_from fold_left].
    assert (Hlen : S n = List.length (p ++ [b]))
      by (rewrite length_app; cbn; lia).
    assert (Happ : p ++ b :: x = (p ++ [b]) ++ x)
      by (now rewrite <- app_assoc).
    assert (Hbound : (best < List.length p)%nat)
      by (apply nth_error_Some; congruence).
    rewrite Happ.
    destruct (Qle_bool b m) eqn:E.
    + assert (Em : np.maximum m b = m) by (unfold np.maximum; now rewrite E).
      rewrite Em. apply Qle_bool_iff in E. apply IH; [exact Hlen| | |].
      * rewrite nth_error_app1 by assumption. exact Hbest.
      * intros j a Hj. destruct (Nat.lt_ge_cases j (List.length p)) as [H|H].
        -- rewrite nth_error_app1 in Hj by assumption. eauto.
        -- rewrite nth_error_app2 in Hj by assumption.
           destruct (j - List.length p)%nat as [|k]; cbn in Hj;
             [injection Hj as <-; assumption|destruct k; discriminate].
      * intros j a Hj Ha. rewrite nth_error_app1 in Ha by lia. eauto.
    + assert (Em : np.maximum m b = b) by (unfold np.maximum; now rewrite E).
      assert (Hmb : m < b).
      { apply Qnot_le_lt. intros H. apply Qle_bool_iff in H. congruence. }
      rewrite Em. apply IH; [exact Hlen| | |].
      * rewrite nth_error_app2 by lia. subst n. now rewrite Nat.sub_diag.
      * intros j a Hj. destruct (Nat.lt_ge_cases j (List.length p)) as [H|H].
        -- rewrite nth_error_app1 in Hj by assumption.
           apply Qlt_le_weak, Qle_lt_trans with m; eauto.
        -- rewrite nth_error_app2 in Hj by assumption.
           destruct (j - List.length p)%nat as [|k]; cbn in Hj;
             [injection Hj as <-; apply Qle_refl|destruct k; discriminate].
      * intros j a Hj Ha. subst n.
        rewrite nth_error_app1 in Ha by assumption.
        apply Qle_lt_trans with m; eauto.
Qed.

Lemma max_spec (x : list Q) :
  x <> [] ->
  exists m, np.max x = Ok m /\ In m x /\ (forall a, In a x -> a <= m).
Proof.
  destruct x as [|b x]; [congruence|]. intros _.
  destruct (fold_maximum_spec x b) as (Hge & Hall & Hin).
  exists (fold_left np.maximum x b). split; [reflexivity|]. split.
  - destruct Hin as [->|Hin]; [now left|now right].
  - intros a [<-|Ha]; [assumption|now apply Hall].
Qed.

Lemma argmax_spec (x : list Q) (m : Q) :
  np.max x = Ok m ->
  exists k, np.argmax x = Ok k
            /\ nth_error x k = Some m
            /\ (forall j a, (j < k)%nat -> nth_error x j = Some a -> a < m).
Proof.
  destruct x as [|b x]; [discriminate|]. cbn [np.max np.argmax].
  intros E. injection E as <-.
  exists (np.argmax_from 0 b 1 x). split; [reflexivity|].
  apply (argmax_from_spec x [b] 0 b 1).
  - reflexivity.
  - reflexivity.
  - intros [|[|j]] a Hj; cbn in Hj; try discriminate.
    injection Hj as <-. apply Qle_refl.
  - intros j a Hj. lia.
Qed.

(** C4, as the code has it.  The statistics are reductions over the series
    alone (no solver is involved): the peak is the maximum of I, the day of
    the peak is the time of the first sample attaining it, the final count is
    N minus the last S sample, and the reported final attack statistic is the
    percentage, final count / N * 100.  The scenario table takes the same
    peak and count, truncated to integers, and the same percentage. *)
Theorem statistics_are_reductions :
  forall (self : ModeleSIR.t) (nom : string) (temps Ss Is Rs : list Q),
    Is <> [] ->
    Ss <> [] ->
    List.length temps = List.length Is ->
    exists pic k jour s_last,
      (In pic Is /\ forall a, In a Is -> a <= pic)
      /\ (nth_error Is k = Some pic
          /\ (forall j a, (j < k)%nat -> nth_error Is j = Some a -> a < pic)
          /\ nth_error temps k = Some jour)
      /\ np.item_last Ss = Ok s_last
      /\ ModeleSIR.calculer_statistiques self temps Ss Is Rs
         = Ok {| ModeleSIR.pic_infectes := pic;
                 ModeleSIR.jour_pic := jour;
                 ModeleSIR.total_infectes := ModeleSIR.N self - s_last;
                 ModeleSIR.pourcentage_infectes :=
                   (ModeleSIR.N self - s_last) / ModeleSIR.N self * 100 |}
      /\ resumer (ModeleSIR.N self) nom Ss Is
         = Ok {| Scenario := nom;
                 Pic_d_infectes := py_int pic;
                 Total_infectes := py_int (ModeleSIR.N self - s_last);
                 Pourcentage :=
                   (ModeleSIR.N self - s_last) / ModeleSIR.N self * 100 |}.
Proof.
  intros self nom temps Ss Is Rs HI HS Hlen.
  destruct (max_spec Is HI) as (pic & Emax & Hin & Hub).
  destruct (argmax_spec Is pic Emax) as (k & Earg & Hk & Hfirst).
  assert (Hbound : (k < List.length temps)%nat).
  { rewrite Hlen. apply nth_error_Some. congruence. }
  destruct (nth_error temps k) as [jour|] eqn:Ejour;
    [|apply nth_error_None in Ejour; lia].
  pose proof (item_last_ok Ss 0 HS) as Elast.
  exists pic, k, jour, (last Ss 0).
  split; [now split|]. split; [now repeat split|]. split; [assumption|].
  split.
  - unfold ModeleSIR.calculer_statistiques, np.item.
    rewrite Emax, Earg. cbn [bind]. rewrite Ejour. cbn [bind].
    now rewrite Elast.
  - unfold resumer. rewrite Emax. cbn [bind]. now rewrite Elast.
Qed.

Lemma statistics_are_reductions_witness :
  let self :=
    {| ModeleSIR.N := 100; ModeleSIR.beta := 1 # 2; ModeleSIR.gamma := 1 # 10;
       ModeleSIR.S0 := 90; ModeleSIR.I0 := 10; ModeleSIR.R0_init := 0;
       ModeleSIR.R0 := 5 |} in
  let temps := [0; 1; 2; 3] in
  let Ss := [90; 60; 40; 30] in
  let Is := [10; 35; 35; 20] in
  let Rs := [0; 5; 25; 50] in
  exists pic k jour s_last,
    (In pic Is /\ forall a, In a Is -> a <= pic)
    /\ (nth_error Is k = Some pic
        /\ (forall j a, (j < k)%nat -> nth_error Is j = Some a -> a < pic)
        /\ nth_error temps k = Some jour)
    /\ np.item_last Ss = Ok s_last
    /\ ModeleSIR.calculer_statistiques self temps Ss Is Rs
       = Ok {| ModeleSIR.pic_infectes := pic;
               ModeleSIR.jour_pic := jour;
               ModeleSIR.total_infectes := ModeleSIR.N self - s_last;
               ModeleSIR.pourcentage_infectes :=
                 (ModeleSIR.N self - s_last) / ModeleSIR.N self * 100 |}
    /\ resumer (ModeleSIR.N self) "essai" Ss Is
       = Ok {| Scenario := "essai";
               Pic_d_infectes := py_int pic;
               Total_infectes := py_int (ModeleSIR.N self - s_last);
               Pourcentage :=
                 (ModeleSIR.N self - s_last) / ModeleSIR.N self * 100 |}.
Proof.
  intros self temps Ss Is Rs.
  apply (statistics_are_reductions self "essai" temps Ss Is Rs).
  - discriminate.
  - discriminate.
  - reflexivity.
Defined.

(** A tie at the peak goes to the earlier day. *)
Example jour_pic_earliest :
  let self :=
    {| ModeleSIR.N := 100; ModeleSIR.beta := 1 # 2; ModeleSIR.gamma := 1 # 10;
       ModeleSIR.S0 := 90; ModeleSIR.I0 := 10; ModeleSIR.R0_init := 0;
       ModeleSIR.R0 := 5 |} in
  ModeleSIR.calculer_statistiques self [0; 1; 2; 3] [90; 60; 40; 30]
                                  [10; 35; 35; 20] [0; 5; 25; 50]
  = Ok {| ModeleSIR.pic_infectes := 35; ModeleSIR.jour_pic := 1;
          ModeleSIR.total_infectes := 100 - 30;
          ModeleSIR.pourcentage_infectes := (100 - 30) / 100 * 100 |}.
Proof. reflexivity. Qed.

(** With N = 100 and a last S sample of 50 the final count is 50 and
    count / N is 1/2, while the statistic the code reports is 50, the
    percentage. *)
Lemma final_attack_is_a_percentage :
  let self :=
    {| ModeleSIR.N := 100; ModeleSIR.beta := 1 # 2; ModeleSIR.gamma := 1 # 10;
       ModeleSIR.S0 := 90; ModeleSIR.I0 := 10; ModeleSIR.R0_init := 0;
       ModeleSIR.R0 := 5 |} in
  exists st,
    ModeleSIR.calculer_statistiques self [0; 1] [90; 50] [10; 40] [0; 10]
    = Ok st
    /\ ModeleSIR.total_infectes st == 50
    /\ ModeleSIR.total_infectes st / ModeleSIR.N self == 1 # 2
    /\ ModeleSIR.pourcentage_infectes st == 50
    /\ ~ ModeleSIR.pourcentage_infectes st
         == ModeleSIR.total_infectes st / ModeleSIR.N self.
Proof.
  intros self. eexists. split; [reflexivity|]. cbn.
  split; [reflexivity|]. split; [reflexivity|]. split; [reflexivity|].
  discriminate.
Qed.

(** ** Determinism of the sweep *)

Lemma yields_ret {A : Type} (a : A) : yields (ret a) (Ok a).
Proof. intros w. reflexivity. Qed.

Lemma yields_lift {A : Type} (r : result A) : yields (lift r) r.
Proof. intros w. reflexivity. Qed.

Lemma yields_emit (e : event) : yields (emit e) (Ok tt).
Proof. intros w. reflexivity. Qed.

Lemma yields_seq {A B : Type} (m : IO A) (k : A -> IO B) (r : result A)
      (f : A -> result B) :
  yields m r -> (forall a, yields (k a) (f a)) -> yields (seq_io m k) (bind r f).
Proof.
  intros Hm Hk w. unfold seq_io. specialize (Hm w).
  destruct (m w) as [[a|exc] w1]; cbn [fst] in Hm; subst r; cbn [bind].
  - apply Hk.
  - reflexivity.
Qed.

Lemma yields_emit_seq {B : Type} (e : event) (k : unit -> IO B)
      (r : result B) :
  yields (k tt) r -> yields (seq_io (emit e) k) r.
Proof. intros Hk w. unfold seq_io, emit. apply Hk. Qed.

Lemma yields_for_each {A B : Type} (xs : list A) (body : B -> A -> IO B)
      (pure : B -> A -> result B) :
  (forall acc x, yields (body acc x) (pure acc x)) ->
  forall acc, yields (for_each xs acc body) (fold_result xs acc pure).
Proof.
  intros Hbody. induction xs as [|x xs IH]; intros acc;
    cbn [for_each fold_result].
  - apply yields_ret.
  - apply yields_seq; [apply Hbody|exact IH].
Qed.

Section SweepOutcome.

Context {lsoda : Solver}.
Variables (N S0 I0 R0_init gamma : Q).
Variable temps : list Q.

Local Abbreviation courbe := (courbe_sans_trace N S0 I0 R0_init gamma temps).
Local Abbreviation attaque := (attaque_sans_trace N S0 I0 R0_init gamma temps).

Lemma tracer_courbes_yields (valeurs_R0 : list Q) :
  yields (tracer_courbes N S0 I0 R0_init gamma temps valeurs_R0)
         (fold_result valeurs_R0 tt courbe).
Proof.
  unfold tracer_courbes. apply yields_for_each. intros acc R0_val.
  unfold courbe_sans_trace. apply yields_seq; [apply yields_lift|].
  intros [[Ss Is] Rs]. apply yields_emit.
Qed.

Lemma attaque_finale_yields (valeurs_R0 : list Q) :
  yields (attaque_finale N S0 I0 R0_init gamma temps valeurs_R0)
         (fold_result valeurs_R0 [] attaque).
Proof.
  unfold attaque_finale. apply yields_for_each. intros acc R0_val.
  unfold attaque_sans_trace. apply yields_seq; [apply yields_lift|].
  intros [[Ss Is] Rs]. apply yields_seq; [apply yields_lift|].
  intros s_last. apply yields_ret.
Qed.

Lemma sensibilite_yields (valeurs_R0 : list Q) :
  yields (sensibilite N S0 I0 R0_init gamma temps valeurs_R0)
         (bind (fold_result valeurs_R0 tt courbe)
               (fun _ => bind (fold_result valeurs_R0 [] attaque)
                              (fun attaques => Ok attaques))).
Proof.
  unfold sensibilite. do 2 (apply yields_emit_seq; cbv beta).
  apply yields_seq; [apply tracer_courbes_yields|]. intros _.
  do 2 (apply yields_emit_seq; cbv beta).
  apply yields_seq; [apply attaque_finale_yields|]. intros attaques.
  do 4 (apply yields_emit_seq; cbv beta). apply yields_ret.
Qed.

Lemma attaque_sweep (valeurs_R0 : list Q) :
  forall acc,
    valeur (fold_result valeurs_R0 acc attaque)
    = option_map (app acc)
        (valeur (sweep_reproduction_number N S0 I0 R0_init gamma temps
                                           valeurs_R0)).
Proof.
  induction valeurs_R0 as [|R0_val rest IH]; intros acc;
    cbn [fold_result sweep_reproduction_number].
  - cbn. now rewrite app_nil_r.
  - unfold attaque_sans_trace at 1.
    destruct (simuler_sir N (R0_val * gamma) gamma S0 I0 R0_init temps)
      as [[[Ss Is] Rs]|exc]; cbn [bind]; [|reflexivity].
    destruct (np.item_last Ss) as [s_last|exc]; cbn [bind]; [|reflexivity].
    rewrite IH.
    destruct (sweep_reproduction_number N S0 I0 R0_init gamma temps rest)
      as [others|exc]; cbn; [|reflexivity].
    now rewrite <- app_assoc.
Qed.

Lemma courbe_sweep (valeurs_R0 : list Q) :
  forall acc,
    match fold_result valeurs_R0 acc courbe with
    | Ok _ => True
    | Raise _ =>
        valeur (sweep_reproduction_number N S0 I0 R0_init gamma temps
                                          valeurs_R0) = None
    end.
Proof.
  induction valeurs_R0 as [|R0_val rest IH]; intros acc;
    cbn [fold_result sweep_reproduction_number]; [exact I|].
  unfold courbe_sans_trace at 1.
  destruct (simuler_sir N (R0_val * gamma) gamma S0 I0 R0_init temps)
    as [[[Ss Is] Rs]|exc]; cbn [bind]; [|reflexivity].
  specialize (IH tt).
  destruct (fold_result rest tt courbe); [exact I|].
  destruct (np.item_last Ss) as [s_last|exc']; cbn [bind]; [|reflexivity].
  destruct (sweep_reproduction_number N S0 I0 R0_init gamma temps rest);
    [discriminate|reflexivity].
Qed.

Lemma sensibilite_sweep (valeurs_R0 : list Q) (w : world) :
  valeur (fst (sensibilite N S0 I0 R0_init gamma temps valeurs_R0 w))
  = valeur (sweep_reproduction_number N S0 I0 R0_init gamma temps valeurs_R0).
Proof.
  rewrite sensibilite_yields.
  pose proof (courbe_sweep valeurs_R0 tt) as H1.
  pose proof (attaque_sweep valeurs_R0 []) as H2.
  destruct (fold_result valeurs_R0 tt courbe) as [[]|exc]; cbn [bind].
  - destruct (fold_result valeurs_R0 [] attaque) as [attaques|exc];
      cbn [bind valeur] in *; rewrite H2;
      now destruct (sweep_reproduction_number _ _ _ _ _ _ _).
  - now rewrite H1.
Qed.

Lemma sensibilite_same_outcome (valeurs_R0 : list Q) (w w' : world) :
  fst (sensibilite N S0 I0 R0_init gamma temps valeurs_R0 w)
  = fst (sensibilite N S0 I0 R0_init gamma temps valeurs_R0 w').
Proof. now rewrite !sensibilite_yields. Qed.

End SweepOutcome.


(** * The rest of the two files *)

(** ** The reference solver *)

Lemma euler_path_prefix (func : derivative) (k : nat) :
  forall (rest : list Q) (y : state) (t0 : Q) (d : state),
    nth k (y :: euler_path func y t0 rest) d
    = nth k (y :: euler_path func y t0 (firstn k rest)) d.
Proof.
  induction k as [|k IH]; intros rest y t0 d; [reflexivity|].
  destruct rest as [|t1 rest]; [reflexivity|].
  cbn [firstn euler_path]. destruct y as [[s i] r].
  destruct (func (s, i, r) t0) as [[ds di] dr].
  cbn [nth]. apply IH.
Qed.

Lemma euler_causal : causal euler.
Proof.
  intros func y0 t k _. cbn [sample euler].
  destruct t as [|t0 rest]; [reflexivity|].
  cbn [firstn]. apply euler_path_prefix.
Qed.

Lemma euler_path_ext (f g : derivative) :
  (forall y u, f y u = g y u) ->
  forall (rest : list Q) (y : state) (t0 : Q),
    euler_path f y t0 rest = euler_path g y t0 rest.
Proof.
  intros Hfg. induction rest as [|t1 rest IH]; intros y t0; [reflexivity|].
  cbn [euler_path]. destruct y as [[s i] r]. rewrite Hfg.
  destruct (g (s, i, r) t0) as [[ds di] dr]. now rewrite IH.
Qed.

Lemma euler_extensional : extensional euler.
Proof.
  intros f g y0 t Hfg. split; [reflexivity|]. intros k. cbn [sample euler].
  destruct t as [|t0 rest]; [reflexivity|].
  now rewrite (euler_path_ext f g Hfg).
Qed.

(** ** The two integrators side by side *)

Lemma rows_ext {lsoda : Solver} (f g : derivative) (y0 : state) (t : list Q) :
  extensional lsoda -> (forall y u, f y u = g y u) ->
  rows f y0 t = rows g y0 t.
Proof.
  intros Hext Hfg. destruct t as [|t0 rest]; [reflexivity|].
  cbn [rows]. f_equal. apply map_ext. intros k.
  now apply (Hext f g y0 (t0 :: rest) Hfg).
Qed.

(** X1. The class and the function are the same integrator: for a solver
    that sees the derivative through its values only, constructing
    [ModeleSIR(N, beta, gamma, S0, I0, R0)] and calling [simuler(temps)]
    gives what [simuler_sir(N, beta, gamma, S0, I0, R0, temps)] gives, on
    every grid, failures included. *)
Theorem simuler_agrees_with_simuler_sir :
  forall (lsoda : Solver) (N beta gamma S0 I0 R0 : Q) (temps : list Q),
    extensional lsoda ->
    ~ gamma == 0 ->
    exists self,
      ModeleSIR.__init__ N beta gamma S0 I0 R0 = Ok self
      /\ ModeleSIR.simuler self temps
         = simuler_sir N beta gamma S0 I0 R0 temps.
Proof.
  intros lsoda N beta gamma S0 I0 R0 temps Hext Hg.
  unfold ModeleSIR.__init__. rewrite py_div_nonzero by assumption.
  cbn [bind]. eexists. split; [reflexivity|].
  unfold ModeleSIR.simuler, simuler_sir, odeint.
  cbn [ModeleSIR.S0 ModeleSIR.I0 ModeleSIR.R0_init].
  set (self := ModeleSIR.Build_t N beta gamma S0 I0 R0 (beta / gamma)).
  assert (Hfg : forall y u,
            ModeleSIR.equations_sir self y u = sir_equations y u N beta gamma).
  { intros y u. apply equations_sir_agree. }
  rewrite (rows_ext _ _ (S0, I0, R0) temps Hext Hfg).
  destruct (Hext _ _ (S0, I0, R0) temps Hfg) as [-> _].
  destruct (nonempty temps && monotone temps); [reflexivity|].
  destruct (fault _ (S0, I0, R0) temps); reflexivity.
Qed.

Lemma simuler_agrees_with_simuler_sir_witness :
  exists self,
    ModeleSIR.__init__ 10000 (1 # 2) (1 # 10) 9990 10 0 = Ok self
    /\ ModeleSIR.simuler (lsoda := euler) self [0; 1; 2]
       = simuler_sir (lsoda := euler) 10000 (1 # 2) (1 # 10) 9990 10 0
                     [0; 1; 2].
Proof.
  apply (simuler_agrees_with_simuler_sir euler 10000 (1 # 2) (1 # 10) 9990 10
           0 [0; 1; 2]).
  - exact euler_extensional.
  - discriminate.
Defined.

(** ** What the intervention leaves untouched *)

Lemma nth_error_drop_last {A : Type} (x : list A) (k : nat) :
  (k < Nat.pred (List.length x))%nat ->
  nth_error (np.drop_last x) k = nth_error x k.
Proof.
  intros H. unfold np.drop_last.
  rewrite removelast_firstn_len, nth_error_firstn.
  destruct (Nat.ltb_spec k (Nat.pred (List.length x))); [reflexivity|lia].
Qed.

Lemma length_drop_last_pred {A : Type} (x : list A) :
  List.length (np.drop_last x) = Nat.pred (List.length x).
Proof.
  unfold np.drop_last. rewrite removelast_firstn_len, length_firstn. lia.
Qed.

Lemma firstn_join {A : Type} (x y : list A) (a : A) :
  np.item_last x = Ok a -> nth_error y 0 = Some a ->
  firstn (List.length x) (np.concatenate (np.drop_last x) y) = x.
Proof.
  intros Ex Ey. unfold np.concatenate.
  rewrite firstn_app, length_drop_last_pred.
  rewrite firstn_all2 by (rewrite length_drop_last_pred; lia).
  assert (Hx : List.length x <> 0%nat) by (destruct x; discriminate).
  replace (List.length x - Nat.pred (List.length x))%nat with 1%nat by lia.
  destruct y as [|b y]; [discriminate|]. injection Ey as ->.
  cbn [firstn]. now apply drop_last_item_last.
Qed.

(** Up to and including the day of the intervention a scenario run is
    segment 1, the run of the base beta over days [0..d]. *)
Lemma simuler_scenario_prefix {lsoda : Solver}
      (N S0 I0 R0_init gamma beta_base : Q) (jours_total : Z) (beta : Q)
      (d : Z) :
  (0 < d <= jours_total)%Z ->
  exists Ss Is Rs,
    simuler_scenario N S0 I0 R0_init gamma beta_base jours_total beta d
    = Ok (Ss, Is, Rs)
    /\ Ok (firstn (Z.to_nat (d + 1)) Ss, firstn (Z.to_nat (d + 1)) Is,
           firstn (Z.to_nat (d + 1)) Rs)
       = simuler_sir N beta_base gamma S0 I0 R0_init (jours 0 (d + 1)).
Proof.
  intros Hd.
  destruct (simuler_scenario_segments N S0 I0 R0_init gamma beta_base
              jours_total beta d Hd)
    as (S1 & I1 & R1 & s1 & i1 & r1 & S2 & I2 & R2
        & E1 & (LS & LI & LR) & (ES & EI & ER) & _ & _ & (FS & FI & FR) & E).
  rewrite jours_length, Z.sub_0_r in LS, LI, LR.
  eexists _, _, _. split; [exact E|]. rewrite E1.
  rewrite <- LS at 1. rewrite <- LI at 1. rewrite <- LR.
  now rewrite (firstn_join S1 S2 s1), (firstn_join I1 I2 i1),
    (firstn_join R1 R2 r1).
Qed.

(** X3. Scenarios with the same intervention day share their beginning:
    whatever their own beta, their series coincide sample for sample from day
    0 up to and including day d, the day of the intervention. *)
Theorem scenarios_share_prefix :
  forall (lsoda : Solver) (N S0 I0 R0_init gamma beta_base : Q)
         (jours_total : Z) (beta beta' : Q) (d : Z),
    (0 < d <= jours_total)%Z ->
    exists Ss Is Rs Ss' Is' Rs',
      simuler_scenario N S0 I0 R0_init gamma beta_base jours_total beta d
      = Ok (Ss, Is, Rs)
      /\ simuler_scenario N S0 I0 R0_init gamma beta_base jours_total beta' d
         = Ok (Ss', Is', Rs')
      /\ firstn (Z.to_nat (d + 1)) Ss = firstn (Z.to_nat (d + 1)) Ss'
      /\ firstn (Z.to_nat (d + 1)) Is = firstn (Z.to_nat (d + 1)) Is'
      /\ firstn (Z.to_nat (d + 1)) Rs = firstn (Z.to_nat (d + 1)) Rs'.
Proof.
  intros lsoda N S0 I0 R0_init gamma beta_base jours_total beta beta' d Hd.
  destruct (simuler_scenario_prefix N S0 I0 R0_init gamma beta_base
              jours_total beta d Hd) as (Ss & Is & Rs & E & P).
  destruct (simuler_scenario_prefix N S0 I0 R0_init gamma beta_base
              jours_total beta' d Hd) as (Ss' & Is' & Rs' & E' & P').
  exists Ss, Is, Rs, Ss', Is', Rs'. rewrite <- P' in P.
  injection P as -> -> ->. now repeat split.
Qed.

Lemma scenarios_share_prefix_witness :
  exists Ss Is Rs Ss' Is' Rs',
    simuler_scenario (lsoda := euler) 10000 9990 10 0 (1 # 10) (1 # 2) 200
                     ((1 # 2) * (7 # 10)) 30
    = Ok (Ss, Is, Rs)
    /\ simuler_scenario (lsoda := euler) 10000 9990 10 0 (1 # 10) (1 # 2) 200
                        ((1 # 2) * (2 # 10)) 30
       = Ok (Ss', Is', Rs')
    /\ firstn (Z.to_nat (30 + 1)) Ss = firstn (Z.to_nat (30 + 1)) Ss'
    /\ firstn (Z.to_nat (30 + 1)) Is = firstn (Z.to_nat (30 + 1)) Is'
    /\ firstn (Z.to_nat (30 + 1)) Rs = firstn (Z.to_nat (30 + 1)) Rs'.
Proof.
  apply (scenarios_share_prefix euler 10000 9990 10 0 (1 # 10) (1 # 2) 200
           ((1 # 2) * (7 # 10)) ((1 # 2) * (2 # 10)) 30).
  lia.
Defined.

Lemma firstn_seq_min (n s m : nat) :
  firstn n (seq s m) = seq s (Nat.min n m).
Proof.
  revert s m. induction n as [|n IH]; intros s m; [reflexivity|].
  destruct m as [|m]; [reflexivity|]. cbn. now rewrite IH.
Qed.

Lemma rows_prefix {lsoda : Solver} (func : derivative) (y0 : state)
      (t : list Q) (n : nat) :
  causal lsoda -> (n <= List.length t)%nat ->
  rows func y0 (firstn n t) = firstn n (rows func y0 t).
Proof.
  intros Hc Hn. destruct n as [|n]; [now destruct t|].
  destruct t as [|t0 rest]; [cbn in Hn; lia|].
  cbn [List.length] in Hn. cbn [firstn rows]. f_equal.
  rewrite firstn_map, firstn_seq_min, length_firstn.
  apply map_ext_in. intros k Hk. apply in_seq in Hk.
  change (t0 :: firstn n rest) with (firstn (S n) (t0 :: rest)).
  rewrite (Hc func y0 (firstn (S n) (t0 :: rest)) k)
    by (rewrite length_firstn; cbn [List.length]; lia).
  rewrite (Hc func y0 (t0 :: rest) k) by (cbn [List.length]; lia).
  rewrite firstn_firstn. f_equal. f_equal. lia.
Qed.

Lemma jours_prefix (d jours_total : Z) :
  (0 <= d <= jours_total)%Z ->
  jours 0 (d + 1) = firstn (Z.to_nat (d + 1)) (jours 0 (jours_total + 1)).
Proof.
  intros H. unfold jours.
  rewrite (arange_split 0 (d + 1) (jours_total + 1)) by lia.
  rewrite map_app, firstn_app, length_map, arange_length, Z.sub_0_r.
  rewrite Nat.sub_diag, firstn_0, app_nil_r.
  symmetry. apply firstn_all2. rewrite length_map, arange_length. lia.
Qed.

(** X4. Composition continuity.  For a solver that produces its output
    points one after the other, the run with an intervention at day d and
    the run without one, with the base beta over the whole horizon, coincide
    sample for sample from day 0 up to and including day d: splicing does
    not disturb the trajectory before the change. *)
Theorem composition_continuity :
  forall (lsoda : Solver) (N S0 I0 R0_init gamma beta_base : Q)
         (jours_total : Z) (beta : Q) (d : Z),
    causal lsoda ->
    (0 < d <= jours_total)%Z ->
    exists Ss Is Rs Sb Ib Rb,
      simuler_scenario N S0 I0 R0_init gamma beta_base jours_total beta d
      = Ok (Ss, Is, Rs)
      /\ simuler_scenario N S0 I0 R0_init gamma beta_base jours_total
                          beta_base 0
         = Ok (Sb, Ib, Rb)
      /\ firstn (Z.to_nat (d + 1)) Ss = firstn (Z.to_nat (d + 1)) Sb
      /\ firstn (Z.to_nat (d + 1)) Is = firstn (Z.to_nat (d + 1)) Ib
      /\ firstn (Z.to_nat (d + 1)) Rs = firstn (Z.to_nat (d + 1)) Rb.
Proof.
  intros lsoda N S0 I0 R0_init gamma beta_base jours_total beta d Hc Hd.
  destruct (simuler_scenario_prefix N S0 I0 R0_init gamma beta_base
              jours_total beta d Hd) as (Ss & Is & Rs & E & P).
  rewrite simuler_scenario_day_zero.
  rewrite simuler_sir_returns in P
    by (first [apply jours_nonempty; lia | apply jours_monotone]).
  rewrite simuler_sir_returns
    by (first [apply jours_nonempty; lia | apply jours_monotone]).
  rewrite jours_prefix with (jours_total := jours_total) in P by lia.
  rewrite rows_prefix in P
    by (first [exact Hc | rewrite jours_length; lia]).
  unfold np.T in *. rewrite <- !firstn_map in P.
  eexists Ss, Is, Rs, _, _, _. split; [exact E|]. split; [reflexivity|].
  injection P as -> -> ->. now repeat split.
Qed.

Lemma composition_continuity_witness :
  exists Ss Is Rs Sb Ib Rb,
    simuler_scenario (lsoda := euler) 10000 9990 10 0 (1 # 10) (1 # 2) 200
                     (1 # 5) 30
    = Ok (Ss, Is, Rs)
    /\ simuler_scenario (lsoda := euler) 10000 9990 10 0 (1 # 10) (1 # 2) 200
                        (1 # 2) 0
       = Ok (Sb, Ib, Rb)
    /\ firstn (Z.to_nat (30 + 1)) Ss = firstn (Z.to_nat (30 + 1)) Sb
    /\ firstn (Z.to_nat (30 + 1)) Is = firstn (Z.to_nat (30 + 1)) Ib
    /\ firstn (Z.to_nat (30 + 1)) Rs = firstn (Z.to_nat (30 + 1)) Rb.
Proof.
  apply (composition_continuity euler 10000 9990 10 0 (1 # 10) (1 # 2) 200
           (1 # 5) 30).
  - exact euler_causal.
  - lia.
Defined.

(** ** Intervention days outside the horizon *)

Lemma jours_empty (a b : Z) : (b <= a)%Z -> jours a b = [].
Proof.
  intros H. unfold jours, np.arange.
  now replace (Z.to_nat (b - a)) with 0%nat by lia.
Qed.

Lemma simuler_sir_empty_grid {lsoda : Solver} (N beta gamma S0 I0 R0 : Q) :
  simuler_sir N beta gamma S0 I0 R0 []
  = match fault (fun y t => sir_equations y t N beta gamma) (S0, I0, R0) []
    with
    | Some exc => Raise exc
    | None => Ok ([], [], [])
    end.
Proof.
  unfold simuler_sir, odeint. cbn [nonempty andb].
  destruct (fault _ (S0, I0, R0) []); reflexivity.
Qed.

(** X5. A negative intervention day never yields a series.  Segment 1 is
    then asked for on an empty grid: the run fails with the solver's own
    exception if it raises one there, and otherwise with [IndexError], from
    taking the last sample of an empty segment. *)
Theorem negative_day_fails :
  forall (lsoda : Solver) (N S0 I0 R0_init gamma beta_base : Q)
         (jours_total : Z) (beta : Q) (d : Z),
    (d < 0)%Z ->
    simuler_scenario N S0 I0 R0_init gamma beta_base jours_total beta d
    = Raise match fault (fun y t => sir_equations y t N beta_base gamma)
                        (S0, I0, R0_init) []
            with
            | Some exc => exc
            | None => "IndexError"%string
            end.
Proof.
  intros lsoda N S0 I0 R0_init gamma beta_base jours_total beta d Hd.
  unfold simuler_scenario.
  destruct (Z.eqb_spec d 0) as [->|_]; [lia|].
  rewrite (jours_empty 0 (d + 1)) by lia.
  rewrite simuler_sir_empty_grid.
  destruct (fault _ (S0, I0, R0_init) []); reflexivity.
Qed.

Lemma negative_day_fails_witness :
  simuler_scenario (lsoda := euler) 10000 9990 10 0 (1 # 10) (1 # 2) 200
                   (1 # 5) (-1)
  = Raise "IndexError".
Proof.
  apply (negative_day_fails euler 10000 9990 10 0 (1 # 10) (1 # 2) 200
           (1 # 5) (-1)).
  lia.
Defined.

(** X6. An intervention day beyond the horizon is not cut back to it.
    Segment 1 runs with the base beta over days [0..d], past the horizon,
    and segment 2 is asked for on an empty grid: the run fails with the
    solver's exception if it raises one there; otherwise it returns segment 1
    without its last sample, d samples that the scenario's own beta never
    touched. *)
Theorem day_beyond_horizon :
  forall (lsoda : Solver) (N S0 I0 R0_init gamma beta_base : Q)
         (jours_total : Z) (beta : Q) (d : Z),
    (0 < d)%Z ->
    (jours_total < d)%Z ->
    exists S1 I1 R1 s1 i1 r1,
      simuler_sir N beta_base gamma S0 I0 R0_init (jours 0 (d + 1))
      = Ok (S1, I1, R1)
      /\ (np.item_last S1 = Ok s1 /\ np.item_last I1 = Ok i1
          /\ np.item_last R1 = Ok r1)
      /\ simuler_scenario N S0 I0 R0_init gamma beta_base jours_total beta d
         = match fault (fun y t => sir_equations y t N beta gamma)
                       (s1, i1, r1) []
           with
           | Some exc => Raise exc
           | None => Ok (np.drop_last S1, np.drop_last I1, np.drop_last R1)
           end
      /\ List.length (np.drop_last S1) = Z.to_nat d
      /\ List.length (np.drop_last I1) = Z.to_nat d
      /\ List.length (np.drop_last R1) = Z.to_nat d.
Proof.
  intros lsoda N S0 I0 R0_init gamma beta_base jours_total beta d Hd Hjt.
  destruct (simuler_sir_spec N beta_base gamma S0 I0 R0_init
              (jours 0 (d + 1)))
    as (S1 & I1 & R1 & E1 & (LS & LI & LR) & _);
    [apply jours_nonempty; lia | apply jours_monotone |].
  rewrite jours_length in LS, LI, LR.
  replace (Z.to_nat (d + 1 - 0)) with (S (Z.to_nat d)) in LS, LI, LR by lia.
  pose proof (item_last_ok S1 0 (length_nonnil _ _ LS)) as ES.
  pose proof (item_last_ok I1 0 (length_nonnil _ _ LI)) as EI.
  pose proof (item_last_ok R1 0 (length_nonnil _ _ LR)) as ER.
  exists S1, I1, R1, (last S1 0), (last I1 0), (last R1 0).
  split; [exact E1|]. split; [now repeat split|].
  split; [|now rewrite !(length_drop_last _ (Z.to_nat d))].
  unfold simuler_scenario.
  destruct (Z.eqb_spec d 0) as [->|_]; [lia|].
  rewrite E1. cbn [bind]. rewrite ES, EI, ER. cbn [bind].
  rewrite (jours_empty d (jours_total + 1)) by lia.
  rewrite simuler_sir_empty_grid.
  destruct (fault _ (last S1 0, last I1 0, last R1 0) []); [reflexivity|].
  cbn [bind]. unfold np.concatenate. now rewrite !app_nil_r.
Qed.

Lemma day_beyond_horizon_witness :
  exists S1 I1 R1 s1 i1 r1,
    simuler_sir (lsoda := euler) 100 (1 # 2) (1 # 10) 90 10 0
                (jours 0 (3 + 1))
    = Ok (S1, I1, R1)
    /\ (np.item_last S1 = Ok s1 /\ np.item_last I1 = Ok i1
        /\ np.item_last R1 = Ok r1)
    /\ simuler_scenario (lsoda := euler) 100 90 10 0 (1 # 10) (1 # 2) 1
                        (1 # 5) 3
       = match fault (Solver := euler)
                     (fun y t => sir_equations y t 100 (1 # 5) (1 # 10))
                     (s1, i1, r1) []
         with
         | Some exc => Raise exc
         | None => Ok (np.drop_last S1, np.drop_last I1, np.drop_last R1)
         end
    /\ List.length (np.drop_last S1) = Z.to_nat 3
    /\ List.length (np.drop_last I1) = Z.to_nat 3
    /\ List.length (np.drop_last R1) = Z.to_nat 3.
Proof.
  apply (day_beyond_horizon euler 100 90 10 0 (1 # 10) (1 # 2) 1 (1 # 5) 3);
    lia.
Defined.

(** ** Scripts that run to their end *)

Lemma runs_ret {A : Type} (P : event -> Prop) (a : A) : runs P (ret a) a.
Proof.
  exists []. split; [constructor|]. intros w. unfold ret.
  now rewrite app_nil_r.
Qed.

Lemma runs_emit (P : event -> Prop) (e : event) : P e -> runs P (emit e) tt.
Proof. intros H. exists [e]. split; [now constructor|reflexivity]. Qed.

Lemma runs_lift {A : Type} (P : event -> Prop) (a : A) :
  runs P (lift (Ok a)) a.
Proof.
  exists []. split; [constructor|]. intros w. unfold lift.
  now rewrite app_nil_r.
Qed.

Lemma runs_seq {A B : Type} (P : event -> Prop) (m : IO A) (k : A -> IO B)
      (a : A) (b : B) :
  runs P m a -> runs P (k a) b -> runs P (seq_io m k) b.
Proof.
  intros (e1 & H1 & R1) (e2 & H2 & R2). exists (e1 ++ e2).
  split; [now apply Forall_app|].
  intros w. unfold seq_io. now rewrite R1, R2, app_assoc.
Qed.

Lemma runs_for_each {A B : Type} (P : event -> Prop) (xs : list A)
      (body : B -> A -> IO B) (step : B -> A -> B) :
  (forall acc x, In x xs -> runs P (body acc x) (step acc x)) ->
  forall acc, runs P (for_each xs acc body) (fold_left step xs acc).
Proof.
  induction xs as [|x xs IH]; intros Hbody acc; cbn [for_each fold_left].
  - apply runs_ret.
  - eapply runs_seq; [apply Hbody; now left|].
    apply IH. intros acc' x' Hx'. apply Hbody. now right.
Qed.

Lemma fold_left_append {A B : Type} (f : A -> B) (xs : list A) (acc : list B) :
  fold_left (fun acc x => acc ++ [f x]) xs acc = acc ++ map f xs.
Proof.
  revert acc. induction xs as [|x xs IH]; intros acc; cbn.
  - now rewrite app_nil_r.
  - now rewrite IH, <- app_assoc.
Qed.


(** An event that needs no alignment, emitted in sequence. *)
Ltac runs_emit_plain :=
  eapply runs_seq; [apply runs_emit; first [exact I | reflexivity]|];
  cbv beta.

Lemma rows_nonnil {lsoda : Solver} (func : derivative) (y0 : state)
      (t : list Q) :
  nonempty t = true -> rows func y0 t <> [].
Proof. destruct t; [discriminate|]. intros _. discriminate. Qed.

Lemma map_nonnil {A B : Type} (f : A -> B) (x : list A) :
  x <> [] -> map f x <> [].
Proof. destruct x; [congruence|]. intros _. discriminate. Qed.

Lemma tracer_courbes_runs {lsoda : Solver} (N S0 I0 R0_init gamma : Q)
      (temps valeurs_R0 : list Q) :
  nonempty temps = true -> monotone temps = true ->
  runs aligned (tracer_courbes N S0 I0 R0_init gamma temps valeurs_R0) tt.
Proof.
  intros Hn Hm. unfold tracer_courbes.
  match goal with
  | |- runs _ ?m tt =>
      assert (H : runs aligned m
                    (fold_left (fun (_ : unit) (_ : Q) => tt) valeurs_R0 tt))
  end.
  { apply runs_for_each. intros [] R0_val _.
    rewrite simuler_sir_returns by assumption.
    eapply runs_seq; [apply runs_lift|]. unfold np.T. cbv beta iota.
    apply runs_emit. cbn [aligned]. now rewrite length_map, rows_length. }
  now destruct (fold_left _ valeurs_R0 tt).
Qed.

Lemma attaque_finale_runs {lsoda : Solver} (N S0 I0 R0_init gamma : Q)
      (temps valeurs_R0 : list Q) :
  nonempty temps = true -> monotone temps = true ->
  runs aligned (attaque_finale N S0 I0 R0_init gamma temps valeurs_R0)
       (map (fun R0_val =>
               (N - last (map (fun y => fst (fst y))
                              (rows (fun y t =>
                                       sir_equations y t N (R0_val * gamma)
                                                     gamma)
                                    (S0, I0, R0_init) temps)) 0)
               / N * 100)
            valeurs_R0).
Proof.
  intros Hn Hm. unfold attaque_finale.
  rewrite <- (app_nil_l (map _ valeurs_R0)), <- fold_left_append.
  apply runs_for_each. intros acc R0_val _.
  rewrite simuler_sir_returns by assumption.
  eapply runs_seq; [apply runs_lift|]. unfold np.T. cbv beta iota.
  rewrite (item_last_ok _ 0) by (apply map_nonnil, rows_nonnil, Hn).
  eapply runs_seq; [apply runs_lift|]. cbv beta. apply runs_ret.
Qed.

Lemma sensibilite_runs {lsoda : Solver} (N S0 I0 R0_init gamma : Q)
      (temps valeurs_R0 : list Q) :
  nonempty temps = true -> monotone temps = true ->
  runs aligned (sensibilite N S0 I0 R0_init gamma temps valeurs_R0)
       (map (fun R0_val =>
               (N - last (map (fun y => fst (fst y))
                              (rows (fun y t =>
                                       sir_equations y t N (R0_val * gamma)
                                                     gamma)
                                    (S0, I0, R0_init) temps)) 0)
               / N * 100)
            valeurs_R0).
Proof.
  intros Hn Hm. unfold sensibilite. do 2 runs_emit_plain.
  eapply runs_seq; [now apply tracer_courbes_runs|]. cbv beta.
  do 2 runs_emit_plain.
  eapply runs_seq; [now apply attaque_finale_runs|]. cbv beta.
  eapply runs_seq;
    [apply runs_emit; cbn [aligned]; now rewrite length_map|].
  cbv beta. do 3 runs_emit_plain. apply runs_ret.
Qed.

(** X7. On a grid the solver accepts, the reproduction-number sweep runs to
    its end from any state of console and figure, and hands over exactly
    one final attack percentage per R0 value, in the order of the values,
    repeated values included: entry k is (N - S[-1]) / N * 100 for the run
    with beta = R0_k * gamma.  Every curve it draws has one point per grid
    point and the bar chart one bar per R0 value. *)
Theorem sweep_results :
  forall (lsoda : Solver) (N S0 I0 R0_init gamma : Q)
         (temps valeurs_R0 : list Q),
    temps <> [] ->
    monotone temps = true ->
    exists attaques : list Q,
      runs aligned (sensibilite N S0 I0 R0_init gamma temps valeurs_R0)
           attaques
      /\ List.length attaques = List.length valeurs_R0
      /\ forall (k : nat) (R0_val : Q),
           nth_error valeurs_R0 k = Some R0_val ->
           exists Ss Is Rs s_last,
             simuler_sir N (R0_val * gamma) gamma S0 I0 R0_init temps
             = Ok (Ss, Is, Rs)
             /\ np.item_last Ss = Ok s_last
             /\ nth_error attaques k = Some ((N - s_last) / N * 100).
Proof.
  intros lsoda N S0 I0 R0_init gamma temps valeurs_R0 Hne Hm.
  apply nonempty_true in Hne.
  eexists. split; [|split].
  - now apply sensibilite_runs.
  - now rewrite length_map.
  - intros k R0_val Hk. rewrite simuler_sir_returns by assumption.
    eexists _, _, _, _. split; [reflexivity|]. split.
    + apply (item_last_ok _ 0), map_nonnil, rows_nonnil, Hne.
    + rewrite nth_error_map, Hk. reflexivity.
Qed.

Lemma sweep_results_witness :
  exists attaques : list Q,
    runs aligned
         (sensibilite (lsoda := euler) 10000 9990 10 0 (1 # 10)
                      (np.linspace 0 200 200) [1 # 2; 1; 3 # 2; 2; 3; 5])
         attaques
    /\ List.length attaques = List.length [1 # 2; 1; 3 # 2; 2; 3; 5]
    /\ forall (k : nat) (R0_val : Q),
         nth_error [1 # 2; 1; 3 # 2; 2; 3; 5] k = Some R0_val ->
         exists Ss Is Rs s_last,
           simuler_sir (lsoda := euler) 10000 (R0_val * (1 # 10)) (1 # 10)
                       9990 10 0 (np.linspace 0 200 200)
           = Ok (Ss, Is, Rs)
           /\ np.item_last Ss = Ok s_last
           /\ nth_error attaques k = Some ((10000 - s_last) / 10000 * 100).
Proof.
  apply (sweep_results euler 10000 9990 10 0 (1 # 10) (np.linspace 0 200 200)
           [1 # 2; 1; 3 # 2; 2; 3; 5]).
  - discriminate.
  - vm_compute. reflexivity.
Defined.

Lemma simuler_scenario_in_range {lsoda : Solver}
      (N S0 I0 R0_init gamma beta_base : Q) (jours_total : Z) (beta : Q)
      (d : Z) :
  (0 <= d <= jours_total)%Z ->
  exists Ss Is Rs,
    simuler_scenario N S0 I0 R0_init gamma beta_base jours_total beta d
    = Ok (Ss, Is, Rs)
    /\ same_length (jours 0 (jours_total + 1)) (Ss, Is, Rs).
Proof.
  intros Hd. destruct (Z.eq_dec d 0) as [->|Hne].
  - rewrite simuler_scenario_day_zero.
    destruct (simuler_sir_spec N beta gamma S0 I0 R0_init
                (jours 0 (jours_total + 1)))
      as (Ss & Is & Rs & E & L & _);
      [apply jours_nonempty; lia | apply jours_monotone |].
    now exists Ss, Is, Rs.
  - destruct (simuler_scenario_segments N S0 I0 R0_init gamma beta_base
                jours_total beta d)
      as (S1 & I1 & R1 & s1 & i1 & r1 & S2 & I2 & R2
          & _ & (LS1 & LI1 & LR1) & _ & _ & (LS2 & LI2 & LR2) & _ & E);
      [lia|].
    rewrite jours_length in LS1, LI1, LR1, LS2, LI2, LR2.
    replace (Z.to_nat (d + 1 - 0)) with (S (Z.to_nat d))
      in LS1, LI1, LR1 by lia.
    apply length_drop_last in LS1, LI1, LR1.
    eexists _, _, _. split; [exact E|].
    unfold same_length, np.concatenate.
    rewrite !length_app, LS1, LI1, LR1, LS2, LI2, LR2, jours_length.
    repeat split; lia.
Qed.

Lemma length_pos_nonnil {A : Type} (x : list A) :
  (0 < List.length x)%nat -> x <> [].
Proof. destruct x; [cbn; lia|]. intros _. discriminate. Qed.

Lemma resumer_ok (N : Q) (nom : string) (Ss Is : list Q) :
  Ss <> [] -> Is <> [] ->
  exists l, resumer N nom Ss Is = Ok l /\ Scenario l = nom.
Proof.
  intros HS HI. destruct (max_spec Is HI) as (pic & E & _).
  unfold resumer. rewrite E. cbn [bind].
  rewrite (item_last_ok Ss 0 HS). cbn [bind].
  eexists. split; reflexivity.
Qed.

Lemma comparer_runs :
  forall (lsoda : Solver) (N S0 I0 R0_init gamma beta_base : Q)
         (jours_total : Z) (scenarios : list (string * (Q * Z))),
    scenarios <> [] ->
    (0 <= jours_total)%Z ->
    Forall (fun entry => (0 <= snd (snd entry) <= jours_total)%Z) scenarios ->
    exists resultats : list ligne,
      runs aligned
           (comparer N S0 I0 R0_init gamma beta_base jours_total scenarios)
           resultats
      /\ Forall2
           (fun entry l =>
              Scenario l = fst entry
              /\ exists Ss Is Rs,
                   simuler_scenario N S0 I0 R0_init gamma beta_base jours_total
                                    (fst (snd entry)) (snd (snd entry))
                   = Ok (Ss, Is, Rs)
                   /\ resumer N (fst entry) Ss Is = Ok l)
           scenarios resultats.
Proof.
  intros lsoda N S0 I0 R0_init gamma beta_base jours_total scenarios Hne Hjt
         Hin.
  pose (vide := {| Scenario := ""; Pic_d_infectes := 0; Total_infectes := 0;
                   Pourcentage := 0 |}).
  pose (ligne_de := fun entry : string * (Q * Z) =>
    match simuler_scenario N S0 I0 R0_init gamma beta_base jours_total
                           (fst (snd entry)) (snd (snd entry)) with
    | Ok (Ss, Is, _) =>
        match resumer N (fst entry) Ss Is with
        | Ok l => l
        | Raise _ => vide
        end
    | Raise _ => vide
    end).
  assert (Hrow : forall entry, In entry scenarios ->
            Scenario (ligne_de entry) = fst entry
            /\ exists Ss Is Rs,
                 simuler_scenario N S0 I0 R0_init gamma beta_base jours_total
                                  (fst (snd entry)) (snd (snd entry))
                 = Ok (Ss, Is, Rs)
                 /\ same_length (jours 0 (jours_total + 1)) (Ss, Is, Rs)
                 /\ resumer N (fst entry) Ss Is = Ok (ligne_de entry)).
  { intros entry He. rewrite Forall_forall in Hin. specialize (Hin entry He).
    destruct (simuler_scenario_in_range N S0 I0 R0_init gamma beta_base
                jours_total (fst (snd entry)) (snd (snd entry)) Hin)
      as (Ss & Is & Rs & E & L).
    pose proof L as (LS & LI & _).
    rewrite jours_length in LS, LI.
    destruct (resumer_ok N (fst entry) Ss Is) as (l & El & Hl);
      [apply length_pos_nonnil; lia | apply length_pos_nonnil; lia |].
    unfold ligne_de. rewrite E, El. split; [exact Hl|].
    now exists Ss, Is, Rs. }
  exists (map ligne_de scenarios). split.
  - unfold comparer. runs_emit_plain.
    apply runs_seq with (a := map ligne_de scenarios).
    { rewrite <- (app_nil_l (map ligne_de scenarios)), <- fold_left_append.
      apply runs_for_each. intros acc [nom [beta d]] He.
      destruct (Hrow _ He) as (_ & Ss & Is & Rs & E & (_ & LI & _) & El).
      cbn [fst snd] in E, El. rewrite E.
      eapply runs_seq; [apply runs_lift|]. cbv beta iota.
      eapply runs_seq; [apply runs_emit; cbn [aligned]; now rewrite LI|].
      cbv beta. rewrite El.
      eapply runs_seq; [apply runs_lift|]. cbv beta. apply runs_ret. }
    cbv beta. do 2 runs_emit_plain.
    eapply runs_seq.
    { destruct scenarios as [|entry rest]; [congruence|].
      cbn [map plt_table]. apply runs_emit. exact I. }
    cbv beta. do 4 runs_emit_plain. apply runs_ret.
  - clear Hin Hne. induction scenarios as [|entry scenarios IH]; cbn [map];
      constructor.
    + destruct (Hrow entry (or_introl eq_refl))
        as (Hn & Ss & Is & Rs & E & _ & El).
      split; [exact Hn|]. now exists Ss, Is, Rs.
    + apply IH. intros e He. apply Hrow. now right.
Qed.



(** X9. Empty batches.  With no R0 value the sweep calls no solver and
    returns the empty list, having drawn its figure with no curve and no
    bar.  With an empty scenario table the comparison does not return: it
    draws the first figure with no curve, opens the second, and fails with
    [IndexError] when the table with no row is handed to [plt.table];
    nothing is saved or printed. *)
Theorem empty_batches :
  forall (lsoda : Solver) (N S0 I0 R0_init gamma beta_base : Q)
         (temps : list Q) (jours_total : Z) (w : world),
    sensibilite N S0 I0 R0_init gamma temps [] w
    = (Ok [],
       w ++ [ Draw "figure" []; Draw "subplot" []; Draw "legend" [];
              Draw "subplot" []; Draw "bar" [[]; []]; Draw "savefig" [];
              Echo "Graphique sauvegarde : analyse_sensibilite_R0.png" [];
              Draw "show" [] ])
    /\ comparer N S0 I0 R0_init gamma beta_base jours_total [] w
       = (Raise "IndexError",
          w ++ [ Draw "figure" []; Draw "legend" []; Draw "figure" [] ]).
Proof.
  intros lsoda N S0 I0 R0_init gamma beta_base temps jours_total w. split.
  - unfold sensibilite, tracer_courbes, attaque_finale, seq_io, emit, ret.
    cbn [for_each]. unfold ret. now rewrite <- !app_assoc.
  - unfold comparer, plt_table, seq_io, emit, lift, ret.
    cbn [for_each]. unfold ret. now rewrite <- !app_assoc.
Qed.

(** ** Statistics: failures and rounding *)

Lemma item_last_raise {A : Type} (x : list A) (exc : string) :
  np.item_last x = Raise exc -> x = [] /\ exc = "IndexError"%string.
Proof.
  destruct x as [|a x]; [intros [= <-]; now split|].
  now rewrite (item_last_ok (a :: x) a).
Qed.

Lemma calculer_statistiques_raise (self : ModeleSIR.t)
      (temps Ss Is Rs : list Q) (exc : string) :
  ModeleSIR.calculer_statistiques self temps Ss Is Rs = Raise exc ->
  (Is = [] /\ exc = "ValueError"%string)
  \/ (Is <> [] /\ exc = "IndexError"%string).
Proof.
  unfold ModeleSIR.calculer_statistiques.
  destruct Is as [|a Is]; [intros [= <-]; now left|].
  cbn [np.max np.argmax bind]. unfold np.item. intros E. right.
  split; [discriminate|].
  destruct (nth_error temps _) as [jour|]; cbn [bind] in E;
    [|now injection E as <-].
  destruct (np.item_last Ss) as [s_last|exc'] eqn:ES; cbn [bind] in E;
    [discriminate|].
  injection E as <-. now apply item_last_raise in ES.
Qed.

Lemma calculer_statistiques_last (self : ModeleSIR.t)
      (temps Ss Is Rs : list Q) (st : ModeleSIR.statistiques) :
  ModeleSIR.calculer_statistiques self temps Ss Is Rs = Ok st ->
  exists s_last, np.item_last Ss = Ok s_last.
Proof.
  unfold ModeleSIR.calculer_statistiques.
  destruct (np.max Is); cbn [bind]; [|discriminate].
  destruct (np.argmax Is); cbn [bind]; [|discriminate].
  destruct (np.item temps _); cbn [bind]; [|discriminate].
  destruct (np.item_last Ss) as [s_last|]; cbn [bind]; [|discriminate].
  intros _. now exists s_last.
Qed.

Lemma afficher_statistiques_runs (self : ModeleSIR.t)
      (temps Ss Is Rs : list Q) (st : ModeleSIR.statistiques) :
  ModeleSIR.calculer_statistiques self temps Ss Is Rs = Ok st ->
  runs aligned (ModeleSIR.afficher_statistiques self temps Ss Is Rs) tt.
Proof.
  intros E. destruct (calculer_statistiques_last _ _ _ _ _ _ E) as [s ES].
  unfold ModeleSIR.afficher_statistiques. rewrite E, ES.
  eapply runs_seq; [apply runs_lift|]. cbv beta.
  eapply runs_seq; [apply runs_lift|]. cbv beta.
  do 9 runs_emit_plain. apply runs_emit. exact I.
Qed.

(** X10. [afficher_statistiques] computes before it prints.  When the
    statistics of its first four lines cannot be computed, it fails with
    that exception and has printed nothing; this happens in two ways only,
    with [ValueError] exactly when the I series is empty, and with
    [IndexError] when I has samples but the time axis stops short of the
    peak or the S series is empty. *)
Theorem afficher_statistiques_failure :
  forall (self : ModeleSIR.t) (temps Ss Is Rs : list Q) (w : world)
         (exc : string),
    ModeleSIR.calculer_statistiques self temps Ss Is Rs = Raise exc ->
    ModeleSIR.afficher_statistiques self temps Ss Is Rs w = (Raise exc, w)
    /\ ((Is = [] /\ exc = "ValueError"%string)
        \/ (Is <> [] /\ exc = "IndexError"%string)).
Proof.
  intros self temps Ss Is Rs w exc E. split.
  - unfold ModeleSIR.afficher_statistiques, seq_io, lift. now rewrite E.
  - now apply calculer_statistiques_raise in E.
Qed.

Lemma afficher_statistiques_failure_witness :
  let self :=
    {| ModeleSIR.N := 100; ModeleSIR.beta := 1 # 2; ModeleSIR.gamma := 1 # 10;
       ModeleSIR.S0 := 90; ModeleSIR.I0 := 10; ModeleSIR.R0_init := 0;
       ModeleSIR.R0 := 5 |} in
  let w := [Echo "SIMULATION DU MODELE SIR" []] in
  ModeleSIR.afficher_statistiques self [0] [90; 80] [10; 15] [] w
  = (Raise "IndexError", w)
  /\ (([10; 15] = [] /\ "IndexError"%string = "ValueError"%string)
      \/ ([10; 15] <> [] /\ "IndexError"%string = "IndexError"%string)).
Proof.
  intros self w.
  apply (afficher_statistiques_failure self [0] [90; 80] [10; 15] [] w
           "IndexError").
  reflexivity.
Defined.

Lemma calculer_statistiques_ok (self : ModeleSIR.t) (temps Ss Is Rs : list Q) :
  Is <> [] -> Ss <> [] -> List.length temps = List.length Is ->
  exists st,
    ModeleSIR.calculer_statistiques self temps Ss Is Rs = Ok st
    /\ In (ModeleSIR.pic_infectes st) Is
    /\ In (ModeleSIR.jour_pic st) temps.
Proof.
  intros HI HS Hlen.
  destruct (max_spec Is HI) as (pic & Emax & Hin & _).
  destruct (argmax_spec Is pic Emax) as (k & Earg & Hk & _).
  assert (Hbound : (k < List.length temps)%nat).
  { rewrite Hlen. apply nth_error_Some. congruence. }
  destruct (nth_error temps k) as [jour|] eqn:Ejour;
    [|apply nth_error_None in Ejour; lia].
  unfold ModeleSIR.calculer_statistiques, np.item.
  rewrite Emax, Earg. cbn [bind]. rewrite Ejour. cbn [bind].
  rewrite (item_last_ok Ss 0 HS). cbn [bind].
  eexists. split; [reflexivity|]. cbn. split; [exact Hin|].
  eapply nth_error_In; eassumption.
Qed.

Lemma tracer_resultats_runs (self : ModeleSIR.t) (temps Ss Is Rs : list Q) :
  same_length temps (Ss, Is, Rs) ->
  runs aligned (ModeleSIR.tracer_resultats self temps Ss Is Rs) tt.
Proof.
  intros (LS & LI & LR). unfold ModeleSIR.tracer_resultats.
  cbv zeta. runs_emit_plain.
  repeat (eapply runs_seq;
          [apply runs_emit; cbn [aligned]; rewrite ?length_map; congruence|];
          cbv beta).
  do 2 runs_emit_plain. apply runs_emit. exact I.
Qed.

Lemma pipeline_runs {lsoda : Solver} (self : ModeleSIR.t) (temps : list Q) :
  temps <> [] ->
  monotone temps = true ->
  exists Ss Is Rs st,
    ModeleSIR.simuler self temps = Ok (Ss, Is, Rs)
    /\ ModeleSIR.calculer_statistiques self temps Ss Is Rs = Ok st
    /\ In (ModeleSIR.pic_infectes st) Is
    /\ In (ModeleSIR.jour_pic st) temps
    /\ runs aligned (ModeleSIR.afficher_statistiques self temps Ss Is Rs) tt
    /\ runs aligned (ModeleSIR.tracer_resultats self temps Ss Is Rs) tt.
Proof.
  intros Hne Hm.
  pose proof (nonempty_true _ Hne) as Hn.
  rewrite simuler_returns by assumption.
  set (sol := rows (ModeleSIR.equations_sir self)
                   (ModeleSIR.S0 self, ModeleSIR.I0 self,
                    ModeleSIR.R0_init self) temps).
  pose proof (T_rows_same_length (ModeleSIR.equations_sir self)
                (ModeleSIR.S0 self, ModeleSIR.I0 self,
                 ModeleSIR.R0_init self) temps) as L.
  fold sol in L. unfold np.T in *. pose proof L as (LS & LI & LR).
  assert (Hpos : (0 < List.length temps)%nat)
    by (destruct temps; [congruence|cbn; lia]).
  destruct (calculer_statistiques_ok self temps
              (map (fun y => fst (fst y)) sol)
              (map (fun y => snd (fst y)) sol)
              (map (fun y => snd y) sol))
    as (st & E & Hpic & Hjour);
    [apply length_pos_nonnil; lia | apply length_pos_nonnil; lia
     | now symmetry |].
  eexists _, _, _, st. split; [reflexivity|].
  split; [exact E|]. split; [exact Hpic|]. split; [exact Hjour|].
  split; [eapply afficher_statistiques_runs; exact E|].
  now apply tracer_resultats_runs.
Qed.

(** X11. Simulation, statistics and figure compose.  On a grid the solver
    accepts, [simuler] returns a series whose statistics (the first four
    lines of [afficher_statistiques]) are always computed: the peak is one of
    the I samples and the day of the peak one of the times of the grid; and
    [tracer_resultats] draws that series to its end, every curve having one
    point per grid point. *)
Theorem simulation_then_statistics :
  forall (lsoda : Solver) (self : ModeleSIR.t) (temps : list Q),
    temps <> [] ->
    monotone temps = true ->
    exists Ss Is Rs st,
      ModeleSIR.simuler self temps = Ok (Ss, Is, Rs)
      /\ ModeleSIR.calculer_statistiques self temps Ss Is Rs = Ok st
      /\ In (ModeleSIR.pic_infectes st) Is
      /\ In (ModeleSIR.jour_pic st) temps
      /\ runs aligned (ModeleSIR.tracer_resultats self temps Ss Is Rs) tt.
Proof.
  intros lsoda self temps Hne Hm.
  destruct (pipeline_runs self temps Hne Hm)
    as (Ss & Is & Rs & st & E & Est & Hpic & Hjour & _ & Ht).
  now exists Ss, Is, Rs, st.
Qed.

Lemma simulation_then_statistics_witness :
  let self :=
    {| ModeleSIR.N := 10000; ModeleSIR.beta := 1 # 2;
       ModeleSIR.gamma := 1 # 10; ModeleSIR.S0 := 9990; ModeleSIR.I0 := 10;
       ModeleSIR.R0_init := 0; ModeleSIR.R0 := 5 |} in
  let temps := np.linspace 0 200 200 in
  exists Ss Is Rs st,
    ModeleSIR.simuler (lsoda := euler) self temps = Ok (Ss, Is, Rs)
    /\ ModeleSIR.calculer_statistiques self temps Ss Is Rs = Ok st
    /\ In (ModeleSIR.pic_infectes st) Is
    /\ In (ModeleSIR.jour_pic st) temps
    /\ runs aligned (ModeleSIR.tracer_resultats self temps Ss Is Rs) tt.
Proof.
  intros self temps.
  apply (simulation_then_statistics euler self temps).
  - discriminate.
  - vm_compute. reflexivity.
Defined.

Lemma py_int_floor (x : Q) :
  0 <= x -> inject_Z (py_int x) <= x /\ x < inject_Z (py_int x) + 1.
Proof.
  intros Hx. assert (E : py_int x = Qfloor x).
  { destruct x as [n d]. unfold py_int, Qfloor. cbn [Qnum Qden].
    apply Z.quot_div_nonneg; [|lia].
    unfold Qle in Hx. cbn in Hx. lia. }
  rewrite E. split; [apply Qfloor_le|].
  pose proof (Qlt_floor x) as H. rewrite inject_Z_plus in H. exact H.
Qed.

(** X12. The integers of the summary table are cut, not rounded: for a
    non-negative peak and a non-negative final count, the table's
    "Pic d'infectes" and "Total infectes" are the largest integers not above
    the computed values, so each under-reports by less than one person. *)
Theorem table_truncates :
  forall (N : Q) (nom : string) (Ss Is : list Q) (l : ligne) (pic s_last : Q),
    np.max Is = Ok pic ->
    np.item_last Ss = Ok s_last ->
    resumer N nom Ss Is = Ok l ->
    0 <= pic ->
    0 <= N - s_last ->
    (inject_Z (Pic_d_infectes l) <= pic
     /\ pic < inject_Z (Pic_d_infectes l) + 1)
    /\ (inject_Z (Total_infectes l) <= N - s_last
        /\ N - s_last < inject_Z (Total_infectes l) + 1).
Proof.
  intros N nom Ss Is l pic s_last Emax Elast E Hpic Htot.
  unfold resumer in E. rewrite Emax, Elast in E. cbn [bind] in E.
  injection E as <-. cbn [Pic_d_infectes Total_infectes].
  split; now apply py_int_floor.
Qed.

Lemma table_truncates_witness :
  let l := {| Scenario := "essai"; Pic_d_infectes := 35; Total_infectes := 69;
              Pourcentage := (100 - (61 # 2)) / 100 * 100 |} in
  (inject_Z (Pic_d_infectes l) <= 71 # 2
   /\ 71 # 2 < inject_Z (Pic_d_infectes l) + 1)
  /\ (inject_Z (Total_infectes l) <= 100 - (61 # 2)
      /\ 100 - (61 # 2) < inject_Z (Total_infectes l) + 1).
Proof.
  intros l.
  apply (table_truncates 100 "essai" [90; 60; 61 # 2] [10; 71 # 2; 20] l
           (71 # 2) (61 # 2)).
  - reflexivity.
  - reflexivity.
  - reflexivity.
  - discriminate.
  - discriminate.
Defined.

(** X13. [resumer], the statistics of one scenario, on empty series: with
    no I sample it fails with [ValueError] (the maximum of nothing); with I
    samples but no S sample it fails with [IndexError]; with at least one
    sample of each it returns the row, under the scenario's name. *)
Theorem resumer_edges :
  forall (N : Q) (nom : string) (Ss Is : list Q) (s a : Q),
    resumer N nom Ss [] = Raise "ValueError"
    /\ resumer N nom [] (a :: Is) = Raise "IndexError"
    /\ exists l, resumer N nom (s :: Ss) (a :: Is) = Ok l /\ Scenario l = nom.
Proof.
  intros N nom Ss Is s a. split; [reflexivity|]. split; [reflexivity|].
  apply resumer_ok; discriminate.
Qed.

(** ** The entry points *)

Lemma main_grid : monotone (np.linspace 0 (inject_Z (Z.of_nat 200)) 200) = true.
Proof. vm_compute. reflexivity. Qed.

Lemma sweep_grid : monotone (np.linspace 0 200 200) = true.
Proof. vm_compute. reflexivity. Qed.

(** X14. Both scripts run to their end, whatever the solver computes and
    whatever console and figure held before: [main] and [main_advanced]
    return without raising, and every curve and bar chart they draw is given
    arrays of matching length. *)
Theorem scripts_run_to_their_end :
  forall lsoda : Solver,
    runs aligned (main (lsoda := lsoda)) tt
    /\ runs aligned (main_advanced (lsoda := lsoda)) tt.
Proof.
  intros lsoda. split.
  - unfold main. cbv zeta. runs_emit_plain.
    unfold ModeleSIR.__init__. rewrite py_div_nonzero by discriminate.
    cbn [bind].
    eapply runs_seq; [apply runs_lift|]. cbv beta.
    match goal with
    | |- context [ModeleSIR.simuler ?self ?temps] =>
        destruct (pipeline_runs self temps)
          as (Ss & Is & Rs & st & E & _ & _ & _ & Ha & Ht);
          [discriminate | exact main_grid |]; rewrite E
    end.
    eapply runs_seq; [apply runs_lift|]. cbv beta iota.
    eapply runs_seq; [exact Ha|]. cbv beta.
    eapply runs_seq; [exact Ht|]. cbv beta.
    apply runs_emit. exact I.
  - unfold main_advanced. runs_emit_plain.
    eapply runs_seq.
    { unfold analyse_sensibilite_R0. cbv zeta beta iota.
      apply sensibilite_runs; [reflexivity|exact sweep_grid]. }
    cbv beta.
    destruct (comparer_runs lsoda 10000 9990 10 0 (1 # 10) (1 # 2) 200
                [ ("Sans intervention"%string, (1 # 2, 0%Z));
                  ("Distanciation modérée (-30%)"%string,
                   ((1 # 2) * (7 # 10), 30%Z));
                  ("Distanciation forte (-60%)"%string,
                   ((1 # 2) * (4 # 10), 30%Z));
                  ("Confinement (-80%)"%string,
                   ((1 # 2) * (2 # 10), 30%Z)) ])
      as (resultats & Hr & _);
      [discriminate | lia | repeat constructor; cbn; lia |].
    eapply runs_seq; [exact Hr|]. cbv beta.
    apply runs_emit. exact I.
Qed.

(** ** Where a scenario starts *)

(** X15. Every scenario of the comparison starts from the initial state it
    is given: with the intervention day anywhere from 0 to the horizon,
    sample 0 of the returned S, I and R series is S0, I0 and R0_init,
    whatever the solver computes afterwards; dropping the boundary sample of
    segment 1 never removes it. *)
Theorem scenario_starts_at_initial_state :
  forall (lsoda : Solver) (N S0 I0 R0_init gamma beta_base : Q)
         (jours_total : Z) (beta : Q) (d : Z),
    (0 <= d <= jours_total)%Z ->
    exists Ss Is Rs,
      simuler_scenario N S0 I0 R0_init gamma beta_base jours_total beta d
      = Ok (Ss, Is, Rs)
      /\ nth_error Ss 0 = Some S0
      /\ nth_error Is 0 = Some I0
      /\ nth_error Rs 0 = Some R0_init.
Proof.
  intros lsoda N S0 I0 R0_init gamma beta_base jours_total beta d Hd.
  destruct (Z.eq_dec d 0) as [->|Hne].
  - rewrite simuler_scenario_day_zero.
    destruct (simuler_sir_spec N beta gamma S0 I0 R0_init
                (jours 0 (jours_total + 1)))
      as (Ss & Is & Rs & E & _ & F);
      [apply jours_nonempty; lia | apply jours_monotone |].
    now exists Ss, Is, Rs.
  - destruct (simuler_scenario_segments N S0 I0 R0_init gamma beta_base
                jours_total beta d)
      as (S1 & I1 & R1 & s1 & i1 & r1 & S2 & I2 & R2
          & E1 & (LS & LI & LR) & _ & _ & _ & _ & E); [lia|].
    destruct (simuler_sir_spec N beta_base gamma S0 I0 R0_init
                (jours 0 (d + 1)))
      as (S1' & I1' & R1' & E1' & _ & (FS & FI & FR));
      [apply jours_nonempty; lia | apply jours_monotone |].
    rewrite E1 in E1'. injection E1' as <- <- <-.
    rewrite jours_length in LS, LI, LR.
    exists (np.concatenate (np.drop_last S1) S2),
           (np.concatenate (np.drop_last I1) I2),
           (np.concatenate (np.drop_last R1) R2).
    split; [exact E|]. unfold np.concatenate.
    rewrite !nth_error_app1 by (rewrite length_drop_last_pred; lia).
    rewrite !nth_error_drop_last by lia. now repeat split.
Qed.

Lemma scenario_starts_at_initial_state_witness :
  exists Ss Is Rs,
    simuler_scenario (lsoda := euler) 10000 9990 10 0 (1 # 10) (1 # 2) 200
                     (1 # 5) 30
    = Ok (Ss, Is, Rs)
    /\ nth_error Ss 0 = Some 9990
    /\ nth_error Is 0 = Some 10
    /\ nth_error Rs 0 = Some 0.
Proof.
  apply (scenario_starts_at_initial_state euler 10000 9990 10 0 (1 # 10)
           (1 # 2) 200 (1 # 5) 30).
  lia.
Defined.
